(** * The key-value client factory of redis-golang (package [database])
    and the two handlers that use it (package [routes])

    A shallow embedding of [NewClient], [createTLSConfig], [Client.Do] and
    [Client.Close], and of [ShortenURL] and [ResolveURL].  Everything the
    package [database] calls outside itself (the file
    system, PEM and key-pair parsing, the radix pool, the remote store) is
    a field of an environment [Env]; every call that reaches the outside is
    appended, with the answer it got, to a history of events, so that "the
    pool was closed", "no command was issued" or "no connection was made"
    are statements about that history. *)

From Stdlib Require Import Strings.String Strings.Ascii Strings.Byte.
From Stdlib Require Import List ZArith.
Import ListNotations.

Local Open Scope string_scope.
Local Open Scope Z_scope.
Local Open Scope list_scope.

Infix "+s+" := String.append (at level 60, right associativity).

(** ** Go's [error] values *)

(** The three shapes of error this package meets: [errors.New] values,
    [fmt.Errorf] values built with the [%w] verb (they keep the wrapped
    error), and errors of concrete types that other packages define
    ([*fs.PathError], [*net.AddrError], radix's errors ...). *)
Inductive error : Type :=
| errorString (s : string)
| wrapError (msg : string) (err : error)
| foreignError (type msg : string).

(** [err.Error()] *)
Definition Error (e : error) : string :=
  match e with
  | errorString s => s
  | wrapError msg _ => msg
  | foreignError _ msg => msg
  end.

(** [errors.Unwrap(err)] *)
Definition Unwrap (e : error) : option error :=
  match e with
  | wrapError _ err => Some err
  | _ => None
  end.

Module errors.
Definition New (text : string) : error := errorString text.
End errors.

Module fmt.
(** A format string cut at its verbs: literal text, a [%s] with its
    (already rendered) argument, a [%w] with its error. *)
Inductive piece : Type :=
| lit (s : string)
| pct_s (arg : string)
| pct_w (err : error).

Definition render (p : piece) : string :=
  match p with
  | lit s => s
  | pct_s arg => arg
  | pct_w err => Error err
  end.

Definition Sprintf (ps : list piece) : string :=
  String.concat "" (map render ps).

Fixpoint wrapped (ps : list piece) : option error :=
  match ps with
  | [] => None
  | pct_w err :: _ => Some err
  | _ :: ps' => wrapped ps'
  end.

(** [fmt.Errorf]: with a [%w] the result wraps that operand. *)
Definition Errorf (ps : list piece) : error :=
  match wrapped ps with
  | Some err => wrapError (Sprintf ps) err
  | None => errorString (Sprintf ps)
  end.
End fmt.

(** ** The types of the packages the code imports *)

Module time.
(** [time.Duration]: an int64 count of nanoseconds. *)
Definition Duration : Type := Z.
Definition Nanosecond : Duration := 1.
Definition Microsecond : Duration := 1000 * Nanosecond.
Definition Millisecond : Duration := 1000 * Microsecond.
Definition Second : Duration := 1000 * Millisecond.
End time.

Module context.
(** Contexts as far as deadlines go. *)
Inductive Context : Type :=
| Background
| WithTimeout (parent : Context) (timeout : time.Duration).

(** [ctx.Deadline()] reports [ok = true]. *)
Definition hasDeadline (ctx : Context) : bool :=
  match ctx with
  | Background => false
  | WithTimeout _ _ => true
  end.
End context.

Module x509.
(** A parsed certificate, kept as its DER bytes. *)
Definition Certificate : Type := list byte.
Definition CertPool : Type := list Certificate.
Definition NewCertPool : CertPool := [].

(** [CertPool.AppendCertsFromPEM], over the decoder [parse] that
    yields the certificates found in the PEM data: they are added to the
    pool, and [ok] reports whether there was any. *)
Definition AppendCertsFromPEM (parse : list byte -> list Certificate)
    (s : CertPool) (pemCerts : list byte) : CertPool * bool :=
  let found := parse pemCerts in
  (s ++ found, negb (Nat.eqb (length found) 0)).
End x509.

Module net.
Record Dialer : Type := { Timeout : time.Duration }.

(** [*net.AddrError], with the text its [Error] method gives. *)
Definition AddrError (Err Addr : string) : error :=
  foreignError "*net.AddrError"
    (if String.eqb Addr "" then Err else "address " +s+ Addr +s+ ": " +s+ Err).

Definition len (s : string) : Z := Z.of_nat (String.length s).

(** [bytealg.IndexByteString]: the first index of [c] in [s], or -1. *)
Fixpoint IndexByteString (s : string) (c : ascii) : Z :=
  match s with
  | EmptyString => -1
  | String a s' =>
      if Ascii.eqb a c then 0
      else let r := IndexByteString s' c in if r <? 0 then -1 else r + 1
  end.

(** [bytealg.LastIndexByteString]: the last index of [c] in [s], or -1. *)
Fixpoint LastIndexByteString (s : string) (c : ascii) : Z :=
  match s with
  | EmptyString => -1
  | String a s' =>
      let r := LastIndexByteString s' c in
      if 0 <=? r then r + 1 else if Ascii.eqb a c then 0 else -1
  end.

(** [s[lo:hi]] and [s[lo:]] *)
Definition slice (s : string) (lo hi : Z) : string :=
  String.substring (Z.to_nat lo) (Z.to_nat (hi - lo)) s.
Definition slice_from (s : string) (lo : Z) : string := slice s lo (len s).

(** [s[i] == c] *)
Definition byte_is (s : string) (i : Z) (c : ascii) : bool :=
  match String.get (Z.to_nat i) s with
  | Some a => Ascii.eqb a c
  | None => false
  end.

Definition missingPort : string := "missing port in address".
Definition tooManyColons : string := "too many colons in address".

Definition addrErr (addr why : string) : string * string * option error :=
  ("", "", Some (AddrError why addr)).

(** The standard library's [net.SplitHostPort], after its Go source
    (it is not part of this repository): the port starts after the last
    colon; a host in brackets may hold colons. *)
Definition SplitHostPort (hostport : string) : string * string * option error :=
  let i := LastIndexByteString hostport ":" in
  if i <? 0 then addrErr hostport missingPort
  else
    let finish (host : string) (j k : Z) :=
      if 0 <=? IndexByteString (slice_from hostport j) "["
      then addrErr hostport "unexpected '[' in address"
      else if 0 <=? IndexByteString (slice_from hostport k) "]"
      then addrErr hostport "unexpected ']' in address"
      else (host, slice_from hostport (i + 1), None) in
    if byte_is hostport 0 "[" then
      let end_ := IndexByteString hostport "]" in
      if end_ <? 0 then addrErr hostport "missing ']' in address"
      else if end_ + 1 =? len hostport then addrErr hostport missingPort
      else if end_ + 1 =? i then finish (slice hostport 1 end_) 1 (end_ + 1)
      else if byte_is hostport (end_ + 1) ":" then addrErr hostport tooManyColons
      else addrErr hostport missingPort
    else
      let host := slice hostport 0 i in
      if 0 <=? IndexByteString host ":" then addrErr hostport tooManyColons
      else finish host 0 0.
End net.

Module tls.
Record Certificate : Type := { Certificate_ : list (list byte); PrivateKey : list byte }.

(** The fields of [tls.Config] the package sets; [RootCAs] is a pointer. *)
Record Config : Type := {
  RootCAs : option x509.CertPool;
  Certificates : list Certificate;
  ServerName : string
}.

(** [var tlsconfig tls.Config] *)
Definition zeroConfig : Config :=
  {| RootCAs := None; Certificates := []; ServerName := EmptyString |}.

Definition set_RootCAs (c : Config) (v : option x509.CertPool) : Config :=
  {| RootCAs := v; Certificates := Certificates c; ServerName := ServerName c |}.
Definition set_Certificates (c : Config) (v : list Certificate) : Config :=
  {| RootCAs := RootCAs c; Certificates := v; ServerName := ServerName c |}.
Definition set_ServerName (c : Config) (v : string) : Config :=
  {| RootCAs := RootCAs c; Certificates := Certificates c; ServerName := v |}.

(** [tls.Dialer]: both fields are pointers, never nil where the package
    builds one from a successful type assertion. *)
Record Dialer : Type := { NetDialer : net.Dialer; Config_ : option Config }.
End tls.

Module radix.
(** The dynamic type held in the interface-typed field
    [radix.Dialer.NetDialer]. *)
Inductive NetDialerValue : Type :=
| ptr_net_Dialer (d : net.Dialer)
| ptr_tls_Dialer (d : tls.Dialer).

Record Dialer : Type := {
  AuthUser : string;
  AuthPass : string;
  NetDialer : NetDialerValue
}.

Definition set_NetDialer (d : Dialer) (v : NetDialerValue) : Dialer :=
  {| AuthUser := AuthUser d; AuthPass := AuthPass d; NetDialer := v |}.

(** The type assertion of [v] to [*net.Dialer] in its two-result form:
    [None] stands for [ok = false]. *)
Definition assert_net_Dialer (v : NetDialerValue) : option net.Dialer :=
  match v with
  | ptr_net_Dialer d => Some d
  | ptr_tls_Dialer _ => None
  end.

(** The fields of [radix.PoolConfig] the package sets. *)
Record PoolConfig : Type := {
  Dialer_ : Dialer;
  Size : Z;
  PingInterval : time.Duration;
  MinReconnectInterval : time.Duration;
  MaxReconnectInterval : time.Duration
}.

(** [radix.Cmd(rcv, cmd, args...)]; [rcv] is [None] for a nil receiver and
    otherwise names the variable the reply is stored in. *)
Record Action : Type := Cmd {
  rcv : option string;
  cmd : string;
  args : list string
}.

(** A live pool (a non-nil [radix.Client]), named by a handle. *)
Definition Client : Type := nat.
End radix.

(** ** Calls to the outside, and the history they leave *)

Inductive event : Type :=
| ReadFile (name : string) (res : list byte + error)
| LoadX509KeyPair (certFile keyFile : string) (res : tls.Certificate + error)
| PoolNew (cfg : radix.PoolConfig) (ctx : context.Context)
          (network addr : string) (res : radix.Client + error)
| PoolDo (p : radix.Client) (ctx : context.Context) (a : radix.Action)
         (res : option error)
| PoolClose (p : radix.Client) (res : option error).

Definition history : Type := list event.

(** What the outside answers.  The answers of the file system and of the
    pool may depend on everything that happened before. *)
Record Env : Type := {
  os_ReadFile : history -> string -> list byte + error;
  x509_parsePEM : list byte -> list x509.Certificate;
  tls_LoadX509KeyPair : history -> string -> string -> tls.Certificate + error;
  net_SplitHostPort : string -> string * string * option error;
  radix_PoolConfig_New :
    history -> radix.PoolConfig -> context.Context -> string -> string ->
    radix.Client + error;
  radix_Client_Do :
    history -> radix.Client -> context.Context -> radix.Action -> option error;
  radix_Client_Close : history -> radix.Client -> option error;
  (** how [fmt] renders an action under [%s] *)
  radix_Action_String : radix.Action -> string
}.

(** A Go call either returns or panics. *)
Inductive outcome (A : Type) : Type :=
| Returns (a : A)
| Panics (why : string).
Arguments Returns {A} a.
Arguments Panics {A} why.

(** A computation is run after a history and yields its outcome together
    with the events it added, oldest first. *)
Definition Run (A : Type) : Type := history -> outcome A * list event.

Definition ret {A} (a : A) : Run A := fun _ => (Returns a, []).

Definition bind {A B} (m : Run A) (k : A -> Run B) : Run B :=
  fun h =>
    match m h with
    | (Returns a, evs) =>
        let (b, evs') := k a (h ++ evs) in (b, evs ++ evs')
    | (Panics why, evs) => (Panics why, evs)
    end.

Definition panic {A} (why : string) : Run A := fun _ => (Panics why, []).

(** One call to the outside: ask, record question and answer. *)
Definition call {R} (answer : history -> R) (record : R -> event) : Run R :=
  fun h => let r := answer h in (Returns r, [record r]).

Declare Scope run_scope.
Delimit Scope run_scope with run.
Notation "x <- m ;; k" := (bind m (fun x => k))
  (at level 100, m at next level, right associativity) : run_scope.
Notation "m ;;; k" := (bind m (fun _ => k))
  (at level 100, right associativity) : run_scope.
Local Open Scope run_scope.

(** ** Package [database] *)

Module database.

Definition errCACertificate : error :=
  errors.New "unable to append the CA certificate".
Definition errTypeAssertion : error :=
  errors.New "type assertion to *net.Dialer failed".

Definition PingInterval : time.Duration := -1.
Definition MinReconnectInterval : time.Duration := 125 * time.Millisecond.
Definition MaxReconnectInterval : time.Duration := 4 * time.Second.
Definition PoolSize : Z := 1.

(** [pool] is an interface value: [None] is nil. *)
Record Client : Type := { pool : option radix.Client }.

Record ClientOptions : Type := {
  TLSEnabled : bool;
  CaCert : string;
  ClientCert : string;
  ClientKey : string;
  SubjectCommonName : string;
  ACLEnabled : bool;
  Username : string;
  Password : string;
  DialConnectTimeout : time.Duration;
  DialWriteTimeout : time.Duration;
  DialReadTimeout : time.Duration
}.

Definition nil_dereference : string :=
  "invalid memory address or nil pointer dereference".

Section WithEnv.
Variable E : Env.

(** [func (c *Client) Close() error] *)
Definition Close (c : Client) : Run (option error) :=
  match pool c with
  | None => panic nil_dereference
  | Some p =>
      err <- call (fun h => radix_Client_Close E h p) (PoolClose p) ;;
      match err with
      | Some err =>
          ret (Some (fmt.Errorf
            [fmt.lit "failed to close connection, err: "; fmt.pct_w err]))
      | None => ret None
      end
  end.

(** [func (c *Client) Do(action radix.Action) error] *)
Definition Do (c : Client) (action : radix.Action) : Run (option error) :=
  match pool c with
  | None => panic nil_dereference
  | Some p =>
      err <- call (fun h => radix_Client_Do E h p context.Background action)
                  (PoolDo p context.Background action) ;;
      match err with
      | Some err =>
          ret (Some (fmt.Errorf
            [fmt.lit "failed to perform action ";
             fmt.pct_s (radix_Action_String E action);
             fmt.lit ", err: "; fmt.pct_w err]))
      | None => ret None
      end
  end.

(** [func createTLSConfig(opts *ClientOptions)], returning a [*tls.Config]
    (nil is [None]) and an [error]. *)
Definition createTLSConfig (opts : ClientOptions)
  : Run (option tls.Config * option error) :=
  let tlsconfig := tls.zeroConfig in
  r <- call (fun h => os_ReadFile E h (CaCert opts)) (ReadFile (CaCert opts)) ;;
  match r with
  | inr err =>
      ret (None, Some (fmt.Errorf
        [fmt.lit "failed to read file from "; fmt.pct_s (CaCert opts);
         fmt.lit ", err: "; fmt.pct_w err]))
  | inl certBytes =>
      let caCertPool := x509.NewCertPool in
      let (caCertPool, ok) :=
        x509.AppendCertsFromPEM (x509_parsePEM E) caCertPool certBytes in
      if negb ok then ret (None, Some errCACertificate)
      else
        let tlsconfig := tls.set_RootCAs tlsconfig (Some caCertPool) in
        r <- call (fun h => tls_LoadX509KeyPair E h (ClientCert opts) (ClientKey opts))
                  (LoadX509KeyPair (ClientCert opts) (ClientKey opts)) ;;
        match r with
        | inr err =>
            ret (Some tlsconfig, Some (fmt.Errorf
              [fmt.lit "failed to read and parse key "; fmt.pct_s (ClientKey opts);
               fmt.lit " from "; fmt.pct_s (ClientCert opts);
               fmt.lit ", err: "; fmt.pct_w err]))
        | inl cert =>
            let tlsconfig := tls.set_Certificates tlsconfig [cert] in
            let tlsconfig :=
              if negb (String.eqb (SubjectCommonName opts) "")
              then tls.set_ServerName tlsconfig (SubjectCommonName opts)
              else tlsconfig in
            ret (Some tlsconfig, None)
        end
  end.

(** The two administrative commands. *)
Definition announce (ipAddr : string) : radix.Action :=
  radix.Cmd None "CONFIG" ["SET"; "cluster-announce-ip"; ipAddr].
Definition masterauth (password : string) : radix.Action :=
  radix.Cmd None "CONFIG" ["SET"; "masterauth"; password].

(** [dialer := radix.Dialer{...}], the literal at the head of [NewClient]. *)
Definition dialer_literal (clientOpts : ClientOptions) : radix.Dialer :=
  {| radix.AuthUser := Username clientOpts;
     radix.AuthPass := Password clientOpts;
     radix.NetDialer :=
       radix.ptr_net_Dialer {| net.Timeout := DialConnectTimeout clientOpts |} |}.

(** The body of [NewClient] below its [clientOpts := ClientOptions{...}]
    assignment, as a function of that local variable. *)
Definition NewClient_body (clientOpts : ClientOptions) (addr : string)
  : Run (option Client * option error) :=
  let dialer := dialer_literal clientOpts in
  dialed <-
    (if TLSEnabled clientOpts then
       r <- createTLSConfig clientOpts ;;
       match r with
       | (_, Some err) => ret (inr err)
       | (tlsConfig, None) =>
           match radix.assert_net_Dialer (radix.NetDialer dialer) with
           | None => ret (inr errTypeAssertion)
           | Some netDialer =>
               ret (inl (radix.set_NetDialer dialer
                 (radix.ptr_tls_Dialer
                    {| tls.NetDialer := netDialer; tls.Config_ := tlsConfig |})))
           end
       end
     else ret (inl dialer)) ;;
  match dialed with
  | inr err => ret (None, Some err)
  | inl dialer =>
      let poolCfg :=
        {| radix.Dialer_ := dialer;
           radix.Size := PoolSize;
           radix.PingInterval := PingInterval;
           radix.MinReconnectInterval := MinReconnectInterval;
           radix.MaxReconnectInterval := MaxReconnectInterval |} in
      r <- call (fun h => radix_PoolConfig_New E h poolCfg context.Background "tcp" addr)
                (PoolNew poolCfg context.Background "tcp" addr) ;;
      match r with
      | inr err =>
          ret (None, Some (fmt.Errorf
            [fmt.lit "radix poolCfg.New err: "; fmt.pct_w err]))
      | inl pool =>
          let c := {| pool := Some pool |} in
          let '(ipAddr, _, err) := net_SplitHostPort E addr in
          match err with
          | Some err =>
              Close c ;;;
              ret (None, Some (fmt.Errorf
                [fmt.lit "failed split address, closing client connection, err:";
                 fmt.pct_w err]))
          | None =>
              err <- Do c (announce ipAddr) ;;
              match err with
              | Some err =>
                  Close c ;;;
                  ret (None, Some (fmt.Errorf
                    [fmt.lit "failed to CONFIG SET, closing client connection, err:";
                     fmt.pct_w err]))
              | None =>
                  if ACLEnabled clientOpts then
                    err <- Do c (masterauth (Password clientOpts)) ;;
                    match err with
                    | Some err =>
                        Close c ;;;
                        ret (None, Some (fmt.Errorf
                          [fmt.lit "failed to CONFIG SET, closing client connection, err:";
                           fmt.pct_w err]))
                    | None => ret (Some c, None)
                    end
                  else ret (Some c, None)
              end
          end
      end
  end.

(** The options [NewClient] builds for itself. *)
Definition clientOpts : ClientOptions :=
  {| TLSEnabled := false;
     CaCert := "";
     ClientCert := "";
     ClientKey := "";
     SubjectCommonName := "";
     ACLEnabled := false;
     Username := "";
     Password := "";
     DialConnectTimeout := 10 * time.Second;
     DialWriteTimeout := 1 * time.Second;
     DialReadTimeout := 1 * time.Second |}.

(** [func (prod RadixV4ClientsProducer) NewClient(addr string) (ClientInterface, error)] *)
Definition NewClient (addr : string) : Run (option Client * option error) :=
  NewClient_body clientOpts addr.

End WithEnv.
End database.

(** ** Package [routes]: the two HTTP handlers *)

(** The history so far. *)
Definition now : Run history := fun h => (Returns h, []).

(** [defer deferred] at the head of [rest]: the deferred call runs when
    [rest] is over, whether it returned or panicked; what it returns is
    dropped. *)
Definition defer_ {A} (deferred : Run (option error)) (rest : Run A) : Run A :=
  fun h =>
    let (o, evs) := rest h in
    match deferred (h ++ evs) with
    | (Returns _, evs') => (o, evs ++ evs')
    | (Panics why, evs') => (Panics why, evs ++ evs')
    end.

Module fiber.
Definition StatusOK : Z := 200.
Definition StatusBadRequest : Z := 400.
Definition StatusForbidden : Z := 403.
Definition StatusNotFound : Z := 404.
Definition StatusInternalServerError : Z := 500.
Definition StatusServiceUnavailable : Z := 503.
End fiber.

(** What the handlers call beside package [database]: the validator, the
    two functions of package [helpers] (their code is not at hand, so they
    are taken as given), the UUID generator, the process environment, and
    the string radix stores through a command's receiver when the command
    succeeds. *)
Record Web : Type := {
  govalidator_IsURL : string -> bool;
  helpers_RemoveDomainError : string -> bool;
  helpers_EnforceHTTP : string -> string;
  uuid_New_String : history -> string;
  os_Getenv : string -> string;
  radix_reply : history -> radix.Client -> radix.Action -> string
}.

Module routes.

Record request : Type := {
  URL : string;
  CustomShort : string;
  Expiry : time.Duration
}.

(** The fields of [response] carry the names of [request]'s, primed. *)
Record response : Type := {
  URL' : string;
  CustomShort' : string;
  Expiry' : time.Duration;
  XRateRemaining : Z;
  XRateLimitReset : time.Duration
}.

Definition set_CustomShort' (r : response) (v : string) : response :=
  {| URL' := URL' r; CustomShort' := v; Expiry' := Expiry' r;
     XRateRemaining := XRateRemaining r;
     XRateLimitReset := XRateLimitReset r |}.

(** What a handler reads from its [*fiber.Ctx]: the route parameters, and
    what [BodyParser] makes of the body when it fills a fresh [request]. *)
Record Ctx : Type := {
  Params : string -> string;
  BodyParser : request + error
}.

(** What a handler answers with: [c.Status(status).JSON(...)] of a
    [fiber.Map] or of a [response], or [c.Redirect(location, status)]. *)
Inductive sent : Type :=
| JSON_Map (status : Z) (m : list (string * string))
| JSON_response (status : Z) (r : response)
| Redirect (location : string) (status : Z).

(** [s[:n]] on a string: out of range, Go panics. *)
Definition prefix (s : string) (n : nat) : Run string :=
  if Nat.ltb (String.length s) n
  then panic "slice bounds out of range"
  else ret (String.substring 0 n s).

Section Handlers.
Variable E : Env.
Variable W : Web.

(** Method calls through the [ClientInterface] value that [NewClient]
    returned; on a nil interface they panic. *)
Definition Do_on (client : option database.Client) (action : radix.Action)
  : Run (option error) :=
  match client with
  | None => panic database.nil_dereference
  | Some c => database.Do E c action
  end.

(** [defer client.Close()] at the head of [rest] *)
Definition defer_Close {A} (client : option database.Client) (rest : Run A)
  : Run A :=
  match client with
  | None => panic database.nil_dereference
  | Some c => defer_ (database.Close E c) rest
  end.

(** [var result string; err = client.Do(radix.Cmd(&result, cmd, args...))]:
    the value of [result] afterwards, and [err]. *)
Definition Do_into (client : option database.Client) (name cmd : string)
    (args : list string) : Run (string * option error) :=
  let action := radix.Cmd (Some name) cmd args in
  h <- now ;;
  err <- Do_on client action ;;
  match err, client with
  | None, Some {| database.pool := Some p |} =>
      ret (radix_reply W h p action, None)
  | _, _ => ret ("", err)
  end.

(** [func ResolveURL(c *fiber.Ctx) error] *)
Definition ResolveURL (c : Ctx) : Run sent :=
  let url := Params c "url" in
  r <- database.NewClient E "db:6379" ;;
  let '(rClient, err) := r in
  match err with
  | Some _ =>
      ret (JSON_Map fiber.StatusNotFound
             [("error", "short not found in the database or cannot connect to DB")])
  | None =>
      defer_Close rClient
        (r <- Do_into rClient "result" "GET" [url] ;;
         let '(result, err) := r in
         match err with
         | Some _ =>
             ret (JSON_Map fiber.StatusNotFound
                    [("error", "short not found in the database or cannot connect to DB")])
         | None => ret (Redirect result 301)
         end)
  end.

(** [func ShortenURL(c *fiber.Ctx) error] *)
Definition ShortenURL (c : Ctx) : Run sent :=
  match BodyParser c with
  | inr _ =>
      ret (JSON_Map fiber.StatusBadRequest [("error", "Cannot parse JSON")])
  | inl body =>
      r <- database.NewClient E "db:6379" ;;
      let '(rClient, err) := r in
      match err with
      | Some err =>
          ret (JSON_Map fiber.StatusBadRequest [("error", Error err)])
      | None =>
          defer_Close rClient
            (if negb (govalidator_IsURL W (URL body)) then
               ret (JSON_Map fiber.StatusBadRequest [("error", "Invalid URL")])
             else if negb (helpers_RemoveDomainError W (URL body)) then
               ret (JSON_Map fiber.StatusServiceUnavailable
                      [("error", "Domain error")])
             else
               let body_URL := helpers_EnforceHTTP W (URL body) in
               id <- (if String.eqb (CustomShort body) ""
                      then h <- now ;; prefix (uuid_New_String W h) 6
                      else ret (CustomShort body)) ;;
               r <- database.NewClient E "db:6379" ;;
               let '(rClient2, err) := r in
               match err with
               | Some err =>
                   ret (JSON_Map fiber.StatusBadRequest [("error", Error err)])
               | None =>
                   defer_Close rClient2
                     (r <- Do_into rClient2 "result" "GET" [id] ;;
                      let '(result, err) := r in
                      match err with
                      | Some _ =>
                          ret (JSON_Map fiber.StatusBadRequest
                                 [("error", "Error creating Client")])
                      | None =>
                          if negb (String.eqb result "") then
                            ret (JSON_Map fiber.StatusForbidden
                                   [("error", "URL custom short is already in use")])
                          else
                            let body_Expiry :=
                              if Expiry body =? 0 then 24 else Expiry body in
                            err <- Do_on rClient2
                                     (radix.Cmd None "SET" [id; body_URL]) ;;
                            match err with
                            | Some _ =>
                                ret (JSON_Map fiber.StatusInternalServerError
                                       [("error", "Unable to connect to server")])
                            | None =>
                                let resp :=
                                  {| URL' := body_URL;
                                     CustomShort' := "";
                                     Expiry' := body_Expiry;
                                     XRateRemaining := 10;
                                     XRateLimitReset := 30 * time.Second |} in
                                let resp :=
                                  set_CustomShort' resp
                                    (os_Getenv W "DOMAIN" +s+ "/" +s+ id) in
                                ret (JSON_response fiber.StatusOK resp)
                            end
                      end)
               end)
      end
  end.

End Handlers.
End routes.

(** ** Test doubles *)

Module mock.

(** What a double is told to do. *)
Record Script : Type := {
  files : string -> option (list byte);
  certificates : list byte -> list x509.Certificate;
  keyPair : option tls.Certificate;
  reachable : bool;
  rejects : radix.Action -> bool
}.

Definition notExist (name : string) : error :=
  foreignError "*fs.PathError" ("open " +s+ name +s+ ": no such file or directory").

Fixpoint closed (p : radix.Client) (h : history) : bool :=
  match h with
  | [] => false
  | PoolClose q _ :: h' => Nat.eqb p q || closed p h'
  | _ :: h' => closed p h'
  end.

Definition errClosed : error := foreignError "radix" "client is closed".

Definition quote (a : radix.Action) : string :=
  String.concat " " (radix.cmd a :: radix.args a).

(** A pool is named by the number of events before it was built; a closed
    pool refuses commands and a second close. *)
Definition env (s : Script) : Env :=
  {| os_ReadFile := fun _ name =>
       match files s name with
       | Some bytes => inl bytes
       | None => inr (notExist name)
       end;
     x509_parsePEM := certificates s;
     tls_LoadX509KeyPair := fun _ certFile keyFile =>
       match keyPair s with
       | Some cert => inl cert
       | None => inr (foreignError "tls" "failed to find any PEM data in certificate input")
       end;
     net_SplitHostPort := net.SplitHostPort;
     radix_PoolConfig_New := fun h _ _ _ addr =>
       if reachable s then inl (length h)
       else inr (foreignError "*net.OpError" ("dial tcp " +s+ addr +s+ ": connect: connection refused"));
     radix_Client_Do := fun h p _ a =>
       if closed p h then Some errClosed
       else if rejects s a then Some (foreignError "resp3.SimpleError" "ERR rejected")
       else None;
     radix_Client_Close := fun h p =>
       if closed p h then Some errClosed else None;
     radix_Action_String := quote |}.

(** The store answers every command; no TLS material on disk. *)
Definition plain : Script :=
  {| files := fun _ => None;
     certificates := fun _ => [];
     keyPair := None;
     reachable := true;
     rejects := fun _ => false |}.

(** The store refuses the commands that [f] picks. *)
Definition refusing (f : radix.Action -> bool) : Script :=
  {| files := files plain;
     certificates := certificates plain;
     keyPair := keyPair plain;
     reachable := true;
     rejects := f |}.

(** Is [a] the command [CONFIG SET key ...]? *)
Definition sets (key : string) (a : radix.Action) : bool :=
  match radix.args a with
  | _ :: k :: _ => String.eqb k key
  | _ => false
  end.

Definition pem : list byte := [x2d; x2d; x2d; x2d; x2d; x42; x45; x47; x49; x4e].
Definition identity : tls.Certificate :=
  {| tls.Certificate_ := [[x30; x82]]; tls.PrivateKey := [x30; x81] |}.

(** TLS material on disk: [ca.pem] holds one certificate, [junk.pem] holds
    none; the key pair loads when [kp] says so. *)
Definition withMaterial (kp : bool) : Script :=
  {| files := fun name =>
       if String.eqb name "ca.pem" then Some pem
       else if String.eqb name "junk.pem" then Some [x00]
       else None;
     certificates := fun bytes =>
       match bytes with
       | x2d :: _ => [bytes]
       | _ => []
       end;
     keyPair := if kp then Some identity else None;
     reachable := true;
     rejects := fun _ => false |}.

Definition options (tlsOn : bool) (ca cn : string) (aclOn : bool)
    (user pass : string) : database.ClientOptions :=
  {| database.TLSEnabled := tlsOn;
     database.CaCert := ca;
     database.ClientCert := "client.pem";
     database.ClientKey := "client.key";
     database.SubjectCommonName := cn;
     database.ACLEnabled := aclOn;
     database.Username := user;
     database.Password := pass;
     database.DialConnectTimeout := 10 * time.Second;
     database.DialWriteTimeout := 1 * time.Second;
     database.DialReadTimeout := 1 * time.Second |}.

End mock.

Module mockweb.

(** The value of the last successful [SET key value] in a history. *)
Fixpoint stored (key : string) (h : history) : string :=
  match h with
  | [] => ""
  | PoolDo _ _ {| radix.cmd := c; radix.args := [k; v] |} None :: h' =>
      let later := stored key h' in
      if andb (String.eqb later "")
              (andb (String.eqb c "SET") (String.eqb k key))
      then v else later
  | _ :: h' => stored key h'
  end.

(** A store that remembers, a validator that refuses the empty string, a
    domain check that refuses the service's own domain, and a fixed UUID
    and domain. *)
Definition web (uuid : string) : Web :=
  {| govalidator_IsURL := fun s => negb (String.eqb s "");
     helpers_RemoveDomainError := fun s => negb (String.eqb s "localhost:3000");
     helpers_EnforceHTTP := fun s => "http://" +s+ s;
     uuid_New_String := fun _ => uuid;
     os_Getenv := fun name =>
       if String.eqb name "DOMAIN" then "localhost:3000" else "";
     radix_reply := fun h _ a =>
       match radix.args a with
       | [key] => stored key h
       | _ => ""
       end |}.

Definition uuid : string := "3f2a9c1e-7b54-4d0a-9e61-0c5d2f8a1b37".

Definition ctx (url short : string) (expiry : time.Duration) : routes.Ctx :=
  {| routes.Params := fun name => if String.eqb name "url" then short else "";
     routes.BodyParser :=
       inl {| routes.URL := url; routes.CustomShort := short;
              routes.Expiry := expiry |} |}.

End mockweb.

(** ** Reading what a run did *)

(** The actions handed to a pool, in the order they were issued. *)
Fixpoint commands (evs : list event) : list radix.Action :=
  match evs with
  | [] => []
  | PoolDo _ _ a _ :: evs' => a :: commands evs'
  | _ :: evs' => commands evs'
  end.

(** Does the event reach the network (dial, command, close)? *)
Definition onNetwork (ev : event) : bool :=
  match ev with
  | PoolNew _ _ _ _ _ | PoolDo _ _ _ _ | PoolClose _ _ => true
  | ReadFile _ _ | LoadX509KeyPair _ _ _ => false
  end.

(** The last thing a run did. *)
Fixpoint final (evs : list event) : option event :=
  match evs with
  | [] => None
  | [ev] => Some ev
  | _ :: evs' => final evs'
  end.

(** Does the event load TLS material? *)
Definition loadsMaterial (ev : event) : bool :=
  match ev with
  | ReadFile _ _ | LoadX509KeyPair _ _ _ => true
  | _ => false
  end.

(** The pools a run built, and the pools it closed, in order. *)
Fixpoint built (evs : list event) : list radix.Client :=
  match evs with
  | [] => []
  | PoolNew _ _ _ _ (inl p) :: evs' => p :: built evs'
  | _ :: evs' => built evs'
  end.

Fixpoint shut (evs : list event) : list radix.Client :=
  match evs with
  | [] => []
  | PoolClose p _ :: evs' => p :: shut evs'
  | _ :: evs' => shut evs'
  end.

(** The requests for a pool, failed ones too: network and address. *)
Fixpoint dials (evs : list event) : list (string * string) :=
  match evs with
  | [] => []
  | PoolNew _ _ network addr _ :: evs' => (network, addr) :: dials evs'
  | _ :: evs' => dials evs'
  end.

(** Once a run has closed a pool, does it do nothing but close pools? *)
Fixpoint only_closes (evs : list event) : bool :=
  match evs with
  | [] => true
  | PoolClose _ _ :: evs' => only_closes evs'
  | _ :: _ => false
  end.

Fixpoint closes_last (evs : list event) : bool :=
  match evs with
  | [] => true
  | PoolClose _ _ :: evs' => only_closes evs'
  | _ :: evs' => closes_last evs'
  end.

(** The options with other write and read timeouts. *)
Definition with_io_timeouts (o : database.ClientOptions)
    (write read : time.Duration) : database.ClientOptions :=
  {| database.TLSEnabled := database.TLSEnabled o;
     database.CaCert := database.CaCert o;
     database.ClientCert := database.ClientCert o;
     database.ClientKey := database.ClientKey o;
     database.SubjectCommonName := database.SubjectCommonName o;
     database.ACLEnabled := database.ACLEnabled o;
     database.Username := database.Username o;
     database.Password := database.Password o;
     database.DialConnectTimeout := database.DialConnectTimeout o;
     database.DialWriteTimeout := write;
     database.DialReadTimeout := read |}.

(** The options with other TLS material. *)
Definition with_material (o : database.ClientOptions)
    (ca cert key cn : string) : database.ClientOptions :=
  {| database.TLSEnabled := database.TLSEnabled o;
     database.CaCert := ca;
     database.ClientCert := cert;
     database.ClientKey := key;
     database.SubjectCommonName := cn;
     database.ACLEnabled := database.ACLEnabled o;
     database.Username := database.Username o;
     database.Password := database.Password o;
     database.DialConnectTimeout := database.DialConnectTimeout o;
     database.DialWriteTimeout := database.DialWriteTimeout o;
     database.DialReadTimeout := database.DialReadTimeout o |}.

(** The pool configuration [NewClient] asks for, around a dialer. *)
Definition poolCfg_of (dialer : radix.Dialer) : radix.PoolConfig :=
  {| radix.Dialer_ := dialer;
     radix.Size := 1;
     radix.PingInterval := -1;
     radix.MinReconnectInterval := 125000000;
     radix.MaxReconnectInterval := 4000000000 |}.

(** ** Proof tools *)

Arguments fmt.Errorf : simpl never.

Ltac unfold_run :=
  unfold database.NewClient, database.NewClient_body, database.createTLSConfig,
         database.Do, database.Close, bind, call, ret, panic in *.

(** Split on the next thing the run depends on: an option flag or an
    answer from the outside, in the order the code asks for them. *)
Ltac answer_step :=
  match goal with
  | |- context [database.TLSEnabled ?o] =>
      destruct (database.TLSEnabled o) eqn:?
  | |- context [os_ReadFile ?E ?h ?n] =>
      destruct (os_ReadFile E h n) eqn:?
  | |- context [x509_parsePEM ?E ?b] =>
      destruct (x509_parsePEM E b) eqn:?
  | |- context [tls_LoadX509KeyPair ?E ?h ?c ?k] =>
      destruct (tls_LoadX509KeyPair E h c k) eqn:?
  | |- context [radix_PoolConfig_New ?E ?h ?cfg ?ctx ?n ?a] =>
      destruct (radix_PoolConfig_New E h cfg ctx n a) eqn:?
  | |- context [net_SplitHostPort ?E ?a] =>
      destruct (net_SplitHostPort E a) as [[? ?] [?|]] eqn:?
  | |- context [radix_Client_Do ?E ?h ?p ?c ?a] =>
      destruct (radix_Client_Do E h p c a) eqn:?
  | |- context [database.ACLEnabled ?o] =>
      destruct (database.ACLEnabled o) eqn:?
  | |- context [radix_Client_Close ?E ?h ?p] =>
      destruct (radix_Client_Close E h p) eqn:?
  end; cbn.

Ltac answer_cases := unfold_run; cbn; repeat answer_step.

(** Go through the members of a list written out in full. *)
Ltac members H :=
  cbn in H;
  repeat (destruct H as [H | H]; [try discriminate H |]);
  try contradiction.

(** Find a member in a list written out in full. *)
Ltac member := cbn; solve [repeat (first [left; reflexivity | right])].

Ltac inv H := inversion H; subst; clear H.

(** ** The doubles at work *)

Example SplitHostPort_store :
  net.SplitHostPort "store:6379" = ("store", "6379", None).
Proof. reflexivity. Qed.

Example SplitHostPort_bracketed :
  net.SplitHostPort "[::1]:6379" = ("::1", "6379", None).
Proof. reflexivity. Qed.

Example SplitHostPort_not_an_address :
  net.SplitHostPort "not-an-address"
  = ("", "", Some (foreignError "*net.AddrError"
                     "address not-an-address: missing port in address")).
Proof. reflexivity. Qed.

Example SplitHostPort_too_many_colons :
  net.SplitHostPort "a:b:1"
  = ("", "", Some (foreignError "*net.AddrError"
                     "address a:b:1: too many colons in address")).
Proof. reflexivity. Qed.

Example NewClient_store :
  database.NewClient (mock.env mock.plain) "store:6379" []
  = (Returns (Some {| database.pool := Some 0%nat |}, None),
     [PoolNew {| radix.Dialer_ :=
                   {| radix.AuthUser := ""; radix.AuthPass := "";
                      radix.NetDialer :=
                        radix.ptr_net_Dialer {| net.Timeout := 10000000000 |} |};
                 radix.Size := 1;
                 radix.PingInterval := -1;
                 radix.MinReconnectInterval := 125000000;
                 radix.MaxReconnectInterval := 4000000000 |}
              context.Background "tcp" "store:6379" (inl 0%nat);
      PoolDo 0%nat context.Background
             (radix.Cmd None "CONFIG" ["SET"; "cluster-announce-ip"; "store"]) None]).
Proof. reflexivity. Qed.

(** ** [Client.Do] *)

(** C7, as amended: on a client that holds a pool, [Do] hands the action
    to the pool together with the background context (which has no
    deadline), makes no other call (it does not close anything), and
    returns: nil when the pool returned nil, and otherwise an error that
    wraps the pool's error and whose text names the action.  (Only a
    client whose pool is nil makes [Do] panic, before any call.) *)
Theorem Do_wraps_pool_error (E : Env) (c : database.Client)
    (action : radix.Action) (h : history) :
  match database.pool c with
  | Some p =>
      let answer := radix_Client_Do E h p context.Background action in
      database.Do E c action h
      = (Returns
           match answer with
           | Some err =>
               Some (wrapError
                       ("failed to perform action "
                        +s+ radix_Action_String E action
                        +s+ ", err: " +s+ Error err) err)
           | None => None
           end,
         [PoolDo p context.Background action answer])
  | None => database.Do E c action h = (Panics database.nil_dereference, [])
  end
  /\ context.hasDeadline context.Background = false.
Proof.
  split; [| reflexivity].
  destruct c as [[p |]]; cbn; [| reflexivity].
  unfold_run; cbn.
  destruct (radix_Client_Do E h p context.Background action) as [err |];
    reflexivity.
Qed.

(** C7, as stated, fails: the context [Do] hands to the pool is
    [context.Background()], which carries no deadline, also when the
    pool operation fails. *)
Lemma Do_context_is_not_bounded :
  database.Do (mock.env (mock.refusing (fun _ => true)))
     {| database.pool := Some 0%nat |} (radix.Cmd (Some "result") "GET" ["k"]) []
  = (Returns (Some (wrapError "failed to perform action GET k, err: ERR rejected"
                      (foreignError "resp3.SimpleError" "ERR rejected"))),
     [PoolDo 0%nat context.Background (radix.Cmd (Some "result") "GET" ["k"])
        (Some (foreignError "resp3.SimpleError" "ERR rejected"))])
  /\ context.hasDeadline context.Background = false
  /\ ~ (forall E c action h p ctx a res,
          In (PoolDo p ctx a res) (snd (database.Do E c action h)) ->
          context.hasDeadline ctx = true).
Proof.
  split; [reflexivity | split; [reflexivity |]].
  intros bounded.
  specialize (bounded (mock.env mock.plain) {| database.pool := Some 0%nat |}
                (radix.Cmd None "GET" ["k"]) [] 0%nat context.Background
                (radix.Cmd None "GET" ["k"]) None).
  cbn in bounded. discriminate bounded. left; reflexivity.
Qed.

(** ** [createTLSConfig] *)

(** C8: in a configuration that [createTLSConfig] returns without error,
    [ServerName] is the [SubjectCommonName] option when that is not empty,
    and is left at its zero value (the empty string) when it is empty. *)
Theorem createTLSConfig_ServerName (E : Env) (opts : database.ClientOptions)
    (h : history) (cfg : tls.Config) (evs : list event) :
  database.createTLSConfig E opts h = (Returns (Some cfg, None), evs) ->
  (database.SubjectCommonName opts <> "" ->
   tls.ServerName cfg = database.SubjectCommonName opts)
  /\ (database.SubjectCommonName opts = "" -> tls.ServerName cfg = "").
Proof.
  unfold_run; cbn.
  destruct (os_ReadFile E h (database.CaCert opts)) as [bytes | e]; cbn;
    [| discriminate].
  destruct (x509_parsePEM E bytes) as [| crt crts]; cbn; [discriminate |].
  destruct (tls_LoadX509KeyPair E _ _ _) as [cert | e]; cbn; [| discriminate].
  intros H; inv H.
  destruct (String.eqb_spec (database.SubjectCommonName opts) "") as [-> | ne];
    cbn; split; intros; congruence.
Qed.

Lemma createTLSConfig_ServerName_witness :
  (tls.ServerName
     {| tls.RootCAs := Some [mock.pem];
        tls.Certificates := [mock.identity];
        tls.ServerName := "store.internal" |} = "store.internal")
  /\ (tls.ServerName
        {| tls.RootCAs := Some [mock.pem];
           tls.Certificates := [mock.identity];
           tls.ServerName := "" |} = "").
Proof.
  split.
  - apply (createTLSConfig_ServerName (mock.env (mock.withMaterial true))
             (mock.options true "ca.pem" "store.internal" false "" "") []
             _ _ eq_refl).
    discriminate.
  - apply (createTLSConfig_ServerName (mock.env (mock.withMaterial true))
             (mock.options true "ca.pem" "" false "" "") []
             _ _ eq_refl).
    reflexivity.
Defined.

(** C9: the error paths of [createTLSConfig] differ in what they return
    beside the error.  When the CA file cannot be read, and when it holds
    no certificate, the configuration returned is nil.  When the client
    key pair cannot be loaded, the configuration returned is not nil: it is
    the one under construction, with [RootCAs] set to the certificates of
    the CA file and no client certificate. *)
Theorem createTLSConfig_error_paths (E : Env) (opts : database.ClientOptions)
    (h : history) :
  (forall e,
      os_ReadFile E h (database.CaCert opts) = inr e ->
      database.createTLSConfig E opts h
      = (Returns (None,
                  Some (wrapError ("failed to read file from "
                                   +s+ database.CaCert opts +s+ ", err: "
                                   +s+ Error e) e)),
         [ReadFile (database.CaCert opts) (inr e)]))
  /\ (forall certBytes,
         os_ReadFile E h (database.CaCert opts) = inl certBytes ->
         x509_parsePEM E certBytes = [] ->
         database.createTLSConfig E opts h
         = (Returns (None, Some database.errCACertificate),
            [ReadFile (database.CaCert opts) (inl certBytes)]))
  /\ (forall certBytes e,
         os_ReadFile E h (database.CaCert opts) = inl certBytes ->
         x509_parsePEM E certBytes <> [] ->
         tls_LoadX509KeyPair E (h ++ [ReadFile (database.CaCert opts) (inl certBytes)])
           (database.ClientCert opts) (database.ClientKey opts) = inr e ->
         database.createTLSConfig E opts h
         = (Returns (Some {| tls.RootCAs := Some (x509_parsePEM E certBytes);
                             tls.Certificates := [];
                             tls.ServerName := "" |},
                     Some (wrapError ("failed to read and parse key "
                                      +s+ database.ClientKey opts +s+ " from "
                                      +s+ database.ClientCert opts +s+ ", err: "
                                      +s+ Error e) e)),
            [ReadFile (database.CaCert opts) (inl certBytes);
             LoadX509KeyPair (database.ClientCert opts) (database.ClientKey opts)
               (inr e)])).
Proof.
  repeat split.
  - intros e Hread. unfold_run; cbn. rewrite Hread. reflexivity.
  - intros certBytes Hread Hnone. unfold_run; cbn. rewrite Hread; cbn.
    rewrite Hnone. reflexivity.
  - intros certBytes e Hread Hsome Hload. unfold_run; cbn. rewrite Hread; cbn.
    destruct (x509_parsePEM E certBytes) as [| crt crts]; [congruence |].
    cbn. rewrite Hload. reflexivity.
Qed.

Lemma createTLSConfig_error_paths_witness :
  database.createTLSConfig (mock.env (mock.withMaterial false))
    (mock.options true "ca.pem" "store.internal" false "" "") []
  = (Returns (Some {| tls.RootCAs := Some [mock.pem];
                      tls.Certificates := [];
                      tls.ServerName := "" |},
              Some (wrapError
                      "failed to read and parse key client.key from client.pem, err: failed to find any PEM data in certificate input"
                      (foreignError "tls" "failed to find any PEM data in certificate input"))),
     [ReadFile "ca.pem" (inl mock.pem);
      LoadX509KeyPair "client.pem" "client.key"
        (inr (foreignError "tls" "failed to find any PEM data in certificate input"))]).
Proof.
  apply (proj2 (proj2 (createTLSConfig_error_paths
                         (mock.env (mock.withMaterial false))
                         (mock.options true "ca.pem" "store.internal" false "" "") []))
           mock.pem
           (foreignError "tls" "failed to find any PEM data in certificate input")
           eq_refl).
  - discriminate.
  - reflexivity.
Defined.

(** ** [NewClient] *)

(** C5: whatever the options, a pool that [NewClient] asks radix to build
    is asked for with size 1, ping interval -1 (radix's value for no
    pinging), a minimum reconnect interval of 125 ms and a maximum of 4 s
    (durations count nanoseconds). *)
Theorem NewClient_pool_configuration (E : Env) (opts : database.ClientOptions)
    (addr : string) (h : history) (cfg : radix.PoolConfig)
    (ctx : context.Context) (network address : string)
    (res : radix.Client + error) :
  In (PoolNew cfg ctx network address res)
     (snd (database.NewClient_body E opts addr h)) ->
  radix.Size cfg = 1
  /\ radix.PingInterval cfg = -1
  /\ radix.MinReconnectInterval cfg = 125 * time.Millisecond
  /\ radix.MinReconnectInterval cfg = 125000000
  /\ radix.MaxReconnectInterval cfg = 4 * time.Second
  /\ radix.MaxReconnectInterval cfg = 4000000000.
Proof.
  answer_cases; intros Hin; members Hin;
    inv Hin; repeat split; reflexivity.
Qed.

Lemma NewClient_pool_configuration_witness :
  let cfg :=
    {| radix.Dialer_ :=
         {| radix.AuthUser := ""; radix.AuthPass := "";
            radix.NetDialer :=
              radix.ptr_net_Dialer {| net.Timeout := 10000000000 |} |};
       radix.Size := 1;
       radix.PingInterval := -1;
       radix.MinReconnectInterval := 125000000;
       radix.MaxReconnectInterval := 4000000000 |} in
  radix.Size cfg = 1
  /\ radix.PingInterval cfg = -1
  /\ radix.MinReconnectInterval cfg = 125 * time.Millisecond
  /\ radix.MinReconnectInterval cfg = 125000000
  /\ radix.MaxReconnectInterval cfg = 4 * time.Second
  /\ radix.MaxReconnectInterval cfg = 4000000000.
Proof.
  apply (NewClient_pool_configuration (mock.env mock.plain) database.clientOpts
           "store:6379" [] _ context.Background "tcp" "store:6379" (inl 0%nat)).
  left. reflexivity.
Defined.

(** C10: the [NetDialer] of the dialer that [NewClient] starts from is the
    [*net.Dialer] of its literal, so the type assertion in the TLS branch
    succeeds, and for no options, address, environment or history does
    [NewClient] return [errTypeAssertion]. *)
Theorem NewClient_type_assertion_succeeds (E : Env)
    (opts : database.ClientOptions) (addr : string) (h : history) :
  radix.assert_net_Dialer (radix.NetDialer (database.dialer_literal opts))
  = Some {| net.Timeout := database.DialConnectTimeout opts |}
  /\ (forall c,
         fst (database.NewClient_body E opts addr h)
         <> Returns (c, Some database.errTypeAssertion))
  /\ (forall c,
         fst (database.NewClient E addr h)
         <> Returns (c, Some database.errTypeAssertion)).
Proof.
  split; [reflexivity |].
  split; intros c; answer_cases; intros H; inv H.
Qed.

(** C4: with TLS enabled, when the CA file is read and holds no
    certificate, client construction returns [errCACertificate] and nil,
    having done nothing but read that file: no pool was asked for and
    nothing reached the network.  The error for a CA file that cannot be
    read is another one: it wraps the read error and its text carries the
    path. *)
Theorem NewClient_untrusted_CA (E : Env) (opts : database.ClientOptions)
    (addr : string) (h : history) (certBytes : list byte) :
  database.TLSEnabled opts = true ->
  os_ReadFile E h (database.CaCert opts) = inl certBytes ->
  x509_parsePEM E certBytes = [] ->
  database.NewClient_body E opts addr h
  = (Returns (None, Some database.errCACertificate),
     [ReadFile (database.CaCert opts) (inl certBytes)])
  /\ Forall (fun ev => onNetwork ev = false)
            (snd (database.NewClient_body E opts addr h))
  /\ Error database.errCACertificate = "unable to append the CA certificate"
  /\ (forall E' opts' addr' h' e,
         database.TLSEnabled opts' = true ->
         os_ReadFile E' h' (database.CaCert opts') = inr e ->
         let ioErr :=
           wrapError ("failed to read file from " +s+ database.CaCert opts'
                      +s+ ", err: " +s+ Error e) e in
         database.NewClient_body E' opts' addr' h'
         = (Returns (None, Some ioErr),
            [ReadFile (database.CaCert opts') (inr e)])
         /\ ioErr <> database.errCACertificate).
Proof.
  intros Htls Hread Hnone.
  assert (Hrun : database.NewClient_body E opts addr h
                 = (Returns (None, Some database.errCACertificate),
                    [ReadFile (database.CaCert opts) (inl certBytes)])).
  { unfold_run; cbn. rewrite Htls; cbn. rewrite Hread; cbn.
    rewrite Hnone. reflexivity. }
  split; [exact Hrun |]. rewrite Hrun. cbn.
  split; [repeat constructor |].
  split; [reflexivity |].
  intros E' opts' addr' h' e Htls' Hread'. cbn zeta.
  split; [| discriminate].
  unfold_run; cbn. rewrite Htls'; cbn. rewrite Hread'. reflexivity.
Qed.

Lemma NewClient_untrusted_CA_witness :
  database.NewClient_body (mock.env (mock.withMaterial true))
    (mock.options true "junk.pem" "" false "" "") "store:6379" []
  = (Returns (None, Some (errorString "unable to append the CA certificate")),
     [ReadFile "junk.pem" (inl [x00])]).
Proof.
  apply (NewClient_untrusted_CA (mock.env (mock.withMaterial true))
           (mock.options true "junk.pem" "" false "" "") "store:6379" [] [x00]
           eq_refl eq_refl eq_refl).
Defined.

(** C2: when [net.SplitHostPort] fails on the address, [NewClient] issues
    no command at all; and if the pool had been built, the last thing
    [NewClient] does is close that pool, and it returns nil with an error
    that wraps the split error. *)
Theorem NewClient_malformed_address (E : Env) (opts : database.ClientOptions)
    (addr : string) (h : history) (host port : string) (e : error) :
  net_SplitHostPort E addr = (host, port, Some e) ->
  commands (snd (database.NewClient_body E opts addr h)) = []
  /\ (forall cfg ctx network address p,
         In (PoolNew cfg ctx network address (inl p))
            (snd (database.NewClient_body E opts addr h)) ->
         (exists res,
             final (snd (database.NewClient_body E opts addr h))
             = Some (PoolClose p res))
         /\ fst (database.NewClient_body E opts addr h)
            = Returns (None,
                       Some (wrapError
                               ("failed split address, closing client connection, err:"
                                +s+ Error e) e))).
Proof.
  intros Hsplit. split.
  - answer_cases; try reflexivity; congruence.
  - intros cfg ctx network address p.
    answer_cases; intros Hin; members Hin; inv Hin;
      try congruence; (split; [eexists; reflexivity |]);
      inv Hsplit; reflexivity.
Qed.

Lemma NewClient_malformed_address_witness :
  commands (snd (database.NewClient (mock.env mock.plain) "not-an-address" [])) = []
  /\ (exists res,
         final (snd (database.NewClient (mock.env mock.plain) "not-an-address" []))
         = Some (PoolClose 0%nat res))
  /\ fst (database.NewClient (mock.env mock.plain) "not-an-address" [])
     = Returns (None,
                Some (wrapError
                        "failed split address, closing client connection, err:address not-an-address: missing port in address"
                        (foreignError "*net.AddrError"
                           "address not-an-address: missing port in address"))).
Proof.
  destruct (NewClient_malformed_address (mock.env mock.plain)
              database.clientOpts "not-an-address" [] "" ""
              (foreignError "*net.AddrError"
                 "address not-an-address: missing port in address")
              eq_refl) as [Hnone Hclose].
  split; [exact Hnone |].
  apply (Hclose {| radix.Dialer_ := database.dialer_literal database.clientOpts;
                   radix.Size := 1;
                   radix.PingInterval := -1;
                   radix.MinReconnectInterval := 125000000;
                   radix.MaxReconnectInterval := 4000000000 |}
                context.Background "tcp" "not-an-address" 0%nat).
  left. reflexivity.
Defined.

(** C1: [NewClient] always returns (it does not panic), and what it
    returns is either nil with an error or a client with no error.  If the
    pool was built and a command then failed, the last thing [NewClient]
    does is close that pool, and it returns nil with an error that wraps,
    two levels down, the error of the command.  A client is returned only
    when the pool it holds was built, the address split, the announcement
    succeeded, with ACL enabled the credential command succeeded too, no
    command failed and nothing was closed. *)
Theorem NewClient_rolls_back_or_configures (E : Env)
    (opts : database.ClientOptions) (addr : string) (h : history) :
  (exists r, fst (database.NewClient_body E opts addr h) = Returns r
             /\ ((exists err, r = (None, Some err)) \/ (exists c, r = (Some c, None))))
  /\ (forall cfg ctx network address p q ctx' a e,
         In (PoolNew cfg ctx network address (inl p))
            (snd (database.NewClient_body E opts addr h)) ->
         In (PoolDo q ctx' a (Some e))
            (snd (database.NewClient_body E opts addr h)) ->
         (exists res,
             final (snd (database.NewClient_body E opts addr h))
             = Some (PoolClose p res))
         /\ (exists err inner,
                fst (database.NewClient_body E opts addr h)
                = Returns (None, Some err)
                /\ Unwrap err = Some inner /\ Unwrap inner = Some e))
  /\ (forall c oe,
         fst (database.NewClient_body E opts addr h) = Returns (Some c, oe) ->
         oe = None
         /\ exists cfg p host port,
             database.pool c = Some p
             /\ In (PoolNew cfg context.Background "tcp" addr (inl p))
                   (snd (database.NewClient_body E opts addr h))
             /\ net_SplitHostPort E addr = (host, port, None)
             /\ In (PoolDo p context.Background (database.announce host) None)
                   (snd (database.NewClient_body E opts addr h))
             /\ (database.ACLEnabled opts = true ->
                 In (PoolDo p context.Background
                       (database.masterauth (database.Password opts)) None)
                    (snd (database.NewClient_body E opts addr h)))
             /\ (forall q ctx' a res,
                    In (PoolDo q ctx' a res)
                       (snd (database.NewClient_body E opts addr h)) ->
                    res = None)
             /\ (forall q res,
                    ~ In (PoolClose q res)
                         (snd (database.NewClient_body E opts addr h)))).
Proof.
  split; [| split].
  - answer_cases; eexists; (split; [reflexivity |]);
      first [left; eexists; reflexivity | right; eexists; reflexivity].
  - intros cfg ctx network address p q ctx' a e.
    answer_cases; intros Hnew Hdo; members Hnew; inv Hnew;
      members Hdo; inv Hdo;
      (split; [eexists; reflexivity |]);
      do 2 eexists; (split; [reflexivity |]); split; reflexivity.
  - intros c oe.
    answer_cases; intros Hret; inv Hret; (split; [reflexivity |]);
      do 4 eexists;
      (split; [reflexivity |]);
      (split; [member |]);
      (split; [reflexivity |]);
      (split; [member |]);
      (split; [intros; first [discriminate | member] |]);
      (split; [intros q ctx' a res Hin; members Hin; inv Hin; reflexivity |]);
      intros q res Hin; members Hin.
Qed.

Lemma NewClient_rolls_back_or_configures_witness :
  let E := mock.env (mock.refusing (mock.sets "masterauth")) in
  let opts := mock.options false "" "" true "replica" "s3cret" in
  (exists res,
      final (snd (database.NewClient_body E opts "store:6379" []))
      = Some (PoolClose 0%nat res))
  /\ (exists err inner,
         fst (database.NewClient_body E opts "store:6379" [])
         = Returns (None, Some err)
         /\ Unwrap err = Some inner
         /\ Unwrap inner = Some (foreignError "resp3.SimpleError" "ERR rejected")).
Proof.
  cbn zeta.
  apply (proj1 (proj2 (NewClient_rolls_back_or_configures
                         (mock.env (mock.refusing (mock.sets "masterauth")))
                         (mock.options false "" "" true "replica" "s3cret")
                         "store:6379" []))
           {| radix.Dialer_ :=
                database.dialer_literal
                  (mock.options false "" "" true "replica" "s3cret");
              radix.Size := 1;
              radix.PingInterval := -1;
              radix.MinReconnectInterval := 125000000;
              radix.MaxReconnectInterval := 4000000000 |}
           context.Background "tcp" "store:6379" 0%nat 0%nat
           context.Background (database.masterauth "s3cret")
           (foreignError "resp3.SimpleError" "ERR rejected")).
  - left. reflexivity.
  - right. right. left. reflexivity.
Defined.

(** C6: when [NewClient] returns a client, the address split into a host
    and a port, and the commands it issued, all on the pool of that client,
    are, in this order: [CONFIG SET cluster-announce-ip host], and then,
    only with ACL enabled, [CONFIG SET masterauth password]. *)
Theorem NewClient_commands_in_order (E : Env) (opts : database.ClientOptions)
    (addr : string) (h : history) (c : database.Client) :
  fst (database.NewClient_body E opts addr h) = Returns (Some c, None) ->
  exists host port,
    net_SplitHostPort E addr = (host, port, None)
    /\ commands (snd (database.NewClient_body E opts addr h))
       = radix.Cmd None "CONFIG" ["SET"; "cluster-announce-ip"; host]
         :: (if database.ACLEnabled opts
             then [radix.Cmd None "CONFIG"
                     ["SET"; "masterauth"; database.Password opts]]
             else [])
    /\ (forall q ctx a res,
           In (PoolDo q ctx a res)
              (snd (database.NewClient_body E opts addr h)) ->
           database.pool c = Some q /\ res = None).
Proof.
  answer_cases; intros Hret; inv Hret;
    do 2 eexists; (split; [reflexivity |]);
    (split; [reflexivity |]);
    intros q ctx a res Hin; members Hin; inv Hin; split; reflexivity.
Qed.

Lemma NewClient_commands_in_order_witness :
  let E := mock.env mock.plain in
  let opts := mock.options false "" "" true "replica" "s3cret" in
  exists host port,
    net_SplitHostPort E "store:6379" = (host, port, None)
    /\ commands (snd (database.NewClient_body E opts "store:6379" []))
       = radix.Cmd None "CONFIG" ["SET"; "cluster-announce-ip"; host]
         :: [radix.Cmd None "CONFIG" ["SET"; "masterauth"; "s3cret"]]
    /\ (forall q ctx a res,
           In (PoolDo q ctx a res)
              (snd (database.NewClient_body E opts "store:6379" [])) ->
           Some 0%nat = Some q /\ res = None).
Proof.
  cbn zeta.
  apply (NewClient_commands_in_order (mock.env mock.plain)
           (mock.options false "" "" true "replica" "s3cret") "store:6379" []
           {| database.pool := Some 0%nat |}).
  reflexivity.
Defined.

(** C3: the options [NewClient] builds have TLS and ACL off, every string
    empty, and timeouts of 10 s, 1 s and 1 s.  So a run of [NewClient]
    loads no TLS material and never issues the [masterauth] command; the
    dialer it hands to radix is the plain [*net.Dialer] with the 10 s
    timeout and no credentials; and the run is the same in two
    environments that differ only in their files, PEM parser and key
    pairs. *)
Theorem NewClient_fixed_options (E : Env) (addr : string) (h : history) :
  database.clientOpts
  = {| database.TLSEnabled := false;
       database.CaCert := "";
       database.ClientCert := "";
       database.ClientKey := "";
       database.SubjectCommonName := "";
       database.ACLEnabled := false;
       database.Username := "";
       database.Password := "";
       database.DialConnectTimeout := 10000000000;
       database.DialWriteTimeout := 1000000000;
       database.DialReadTimeout := 1000000000 |}
  /\ database.NewClient E addr h = database.NewClient_body E database.clientOpts addr h
  /\ Forall (fun ev => loadsMaterial ev = false) (snd (database.NewClient E addr h))
  /\ (forall password,
         ~ In (database.masterauth password)
              (commands (snd (database.NewClient E addr h))))
  /\ (forall cfg ctx network address res,
         In (PoolNew cfg ctx network address res) (snd (database.NewClient E addr h)) ->
         radix.Dialer_ cfg
         = {| radix.AuthUser := "";
              radix.AuthPass := "";
              radix.NetDialer :=
                radix.ptr_net_Dialer {| net.Timeout := 10 * time.Second |} |})
  /\ (forall E',
         net_SplitHostPort E' = net_SplitHostPort E ->
         radix_PoolConfig_New E' = radix_PoolConfig_New E ->
         radix_Client_Do E' = radix_Client_Do E ->
         radix_Client_Close E' = radix_Client_Close E ->
         radix_Action_String E' = radix_Action_String E ->
         database.NewClient E' addr h = database.NewClient E addr h).
Proof.
  split; [reflexivity |].
  split; [reflexivity |].
  split; [| split; [| split]].
  - answer_cases; repeat constructor.
  - intros password. answer_cases; intros Hin; members Hin.
  - intros cfg ctx network address res.
    answer_cases; intros Hin; members Hin; inv Hin; reflexivity.
  - intros E' Hsplit Hnew Hdo Hclose Hstring.
    unfold_run; cbn.
    rewrite Hsplit, Hnew, Hdo, Hclose, Hstring. reflexivity.
Qed.

(** ** More on [Client.Close] and [NewClient] *)

(** X1: [Close] on a client that holds a pool asks the pool to close, once,
    and returns nil when the pool did, and otherwise an error that wraps
    the pool's.  It keeps no note of having closed: a second [Close]
    reaches the pool again, and what the pool answers then is what the
    caller gets.  On a client whose pool is nil it panics. *)
Theorem Close_reaches_pool_every_time (E : Env) (c : database.Client)
    (h : history) :
  match database.pool c with
  | Some p =>
      let first := radix_Client_Close E h p in
      let second := radix_Client_Close E (h ++ [PoolClose p first]) p in
      let wrap := fun answer : option error =>
        match answer with
        | Some err =>
            Some (wrapError ("failed to close connection, err: " +s+ Error err) err)
        | None => None
        end in
      database.Close E c h = (Returns (wrap first), [PoolClose p first])
      /\ bind (database.Close E c) (fun _ => database.Close E c) h
         = (Returns (wrap second), [PoolClose p first; PoolClose p second])
  | None => database.Close E c h = (Panics database.nil_dereference, [])
  end.
Proof.
  destruct c as [[p |]]; cbn; [| reflexivity].
  unfold_run; cbn.
  destruct (radix_Client_Close E h p) as [e1 |]; cbn;
    destruct (radix_Client_Close E _ p) as [e2 |]; cbn; split; reflexivity.
Qed.

(** X2: when radix cannot build the pool, [NewClient] stops there: it
    returns nil and an error that wraps radix's, and it has issued no
    command and closed nothing. *)
Theorem NewClient_pool_failure (E : Env) (opts : database.ClientOptions)
    (addr : string) (h : history) (cfg : radix.PoolConfig)
    (ctx : context.Context) (network address : string) (e : error) :
  In (PoolNew cfg ctx network address (inr e))
     (snd (database.NewClient_body E opts addr h)) ->
  fst (database.NewClient_body E opts addr h)
  = Returns (None, Some (wrapError ("radix poolCfg.New err: " +s+ Error e) e))
  /\ final (snd (database.NewClient_body E opts addr h))
     = Some (PoolNew cfg ctx network address (inr e))
  /\ commands (snd (database.NewClient_body E opts addr h)) = []
  /\ shut (snd (database.NewClient_body E opts addr h)) = [].
Proof.
  answer_cases; intros Hin; members Hin; inv Hin; repeat split; reflexivity.
Qed.

Lemma NewClient_pool_failure_witness :
  let E := mock.env {| mock.files := mock.files mock.plain;
                       mock.certificates := mock.certificates mock.plain;
                       mock.keyPair := None;
                       mock.reachable := false;
                       mock.rejects := fun _ => false |} in
  fst (database.NewClient_body E database.clientOpts "db:6379" [])
  = Returns (None,
             Some (wrapError
                     "radix poolCfg.New err: dial tcp db:6379: connect: connection refused"
                     (foreignError "*net.OpError"
                        "dial tcp db:6379: connect: connection refused")))
  /\ final (snd (database.NewClient_body E database.clientOpts "db:6379" []))
     = Some (PoolNew (poolCfg_of (database.dialer_literal database.clientOpts))
               context.Background "tcp" "db:6379"
               (inr (foreignError "*net.OpError"
                       "dial tcp db:6379: connect: connection refused")))
  /\ commands (snd (database.NewClient_body E database.clientOpts "db:6379" [])) = []
  /\ shut (snd (database.NewClient_body E database.clientOpts "db:6379" [])) = [].
Proof.
  cbn zeta.
  apply (NewClient_pool_failure _ database.clientOpts "db:6379" []
           (poolCfg_of (database.dialer_literal database.clientOpts))
           context.Background "tcp" "db:6379"
           (foreignError "*net.OpError"
              "dial tcp db:6379: connect: connection refused")).
  left. reflexivity.
Defined.

(** X3: in one run [NewClient] asks for at most one pool, on network
    [tcp] at the address it was given; it issues at most two commands;
    every command and every close goes to the pool it built; and a close,
    if there is one, is the last thing it does. *)
Theorem NewClient_one_pool (E : Env) (opts : database.ClientOptions)
    (addr : string) (h : history) :
  (dials (snd (database.NewClient_body E opts addr h)) = []
   \/ dials (snd (database.NewClient_body E opts addr h)) = [("tcp", addr)])
  /\ (length (commands (snd (database.NewClient_body E opts addr h))) <= 2)%nat
  /\ (forall q ctx a res,
         In (PoolDo q ctx a res) (snd (database.NewClient_body E opts addr h)) ->
         built (snd (database.NewClient_body E opts addr h)) = [q])
  /\ (forall q res,
         In (PoolClose q res) (snd (database.NewClient_body E opts addr h)) ->
         built (snd (database.NewClient_body E opts addr h)) = [q]
         /\ final (snd (database.NewClient_body E opts addr h))
            = Some (PoolClose q res)).
Proof.
  split; [| split; [| split]].
  - answer_cases; (left; reflexivity) || (right; reflexivity).
  - answer_cases; repeat constructor.
  - intros q ctx a res. answer_cases; intros Hin; members Hin; inv Hin; reflexivity.
  - intros q res. answer_cases; intros Hin; members Hin; inv Hin; split; reflexivity.
Qed.

(** X4: [NewClient] leaks no pool.  When it returns an error, the pools
    it closed are the pools it built (one or none); when it returns a
    client, it built exactly the pool of that client and closed nothing. *)
Theorem NewClient_leaks_no_pool (E : Env) (opts : database.ClientOptions)
    (addr : string) (h : history) :
  match fst (database.NewClient_body E opts addr h) with
  | Returns (None, _) =>
      shut (snd (database.NewClient_body E opts addr h))
      = built (snd (database.NewClient_body E opts addr h))
  | Returns (Some c, _) =>
      shut (snd (database.NewClient_body E opts addr h)) = []
      /\ exists p,
          database.pool c = Some p
          /\ built (snd (database.NewClient_body E opts addr h)) = [p]
  | Panics _ => False
  end.
Proof.
  answer_cases; try reflexivity; (split; [reflexivity |]); eexists; split; reflexivity.
Qed.

(** X5: when the CA file is read, holds certificates, and the client key
    pair loads, [createTLSConfig] returns no error and a configuration
    whose [RootCAs] are the certificates of the CA file (and no others),
    whose only certificate is the client's, and whose [ServerName] is the
    [SubjectCommonName] option; it has read the CA file once and loaded the
    key pair once, in that order. *)
Theorem createTLSConfig_success (E : Env) (opts : database.ClientOptions)
    (h : history) (certBytes : list byte) (cert : tls.Certificate) :
  os_ReadFile E h (database.CaCert opts) = inl certBytes ->
  x509_parsePEM E certBytes <> [] ->
  tls_LoadX509KeyPair E (h ++ [ReadFile (database.CaCert opts) (inl certBytes)])
    (database.ClientCert opts) (database.ClientKey opts) = inl cert ->
  database.createTLSConfig E opts h
  = (Returns (Some {| tls.RootCAs := Some (x509_parsePEM E certBytes);
                      tls.Certificates := [cert];
                      tls.ServerName := database.SubjectCommonName opts |},
              None),
     [ReadFile (database.CaCert opts) (inl certBytes);
      LoadX509KeyPair (database.ClientCert opts) (database.ClientKey opts)
        (inl cert)]).
Proof.
  intros Hread Hsome Hload. unfold_run; cbn. rewrite Hread; cbn.
  destruct (x509_parsePEM E certBytes) as [| crt crts]; [congruence |].
  cbn. rewrite Hload; cbn.
  destruct (String.eqb_spec (database.SubjectCommonName opts) "") as [-> | ne];
    reflexivity.
Qed.

Lemma createTLSConfig_success_witness :
  database.createTLSConfig (mock.env (mock.withMaterial true))
    (mock.options true "ca.pem" "store.internal" false "" "") []
  = (Returns (Some {| tls.RootCAs := Some [mock.pem];
                      tls.Certificates := [mock.identity];
                      tls.ServerName := "store.internal" |},
              None),
     [ReadFile "ca.pem" (inl mock.pem);
      LoadX509KeyPair "client.pem" "client.key" (inl mock.identity)]).
Proof.
  apply (createTLSConfig_success (mock.env (mock.withMaterial true))
           (mock.options true "ca.pem" "store.internal" false "" "") []
           mock.pem mock.identity eq_refl).
  - discriminate.
  - reflexivity.
Defined.

(** X6: [createTLSConfig] works on local files only and in a fixed
    order.  It never panics and never reaches the network; the first
    thing it does is read the CA file; it looks at the client key pair
    only after the CA file gave at least one certificate; and when it
    returns no error, the configuration it returns is not nil. *)
Theorem createTLSConfig_is_local (E : Env) (opts : database.ClientOptions)
    (h : history) :
  (exists cfg err,
      fst (database.createTLSConfig E opts h) = Returns (cfg, err)
      /\ (err = None -> cfg <> None))
  /\ Forall (fun ev => onNetwork ev = false)
            (snd (database.createTLSConfig E opts h))
  /\ (exists rest,
         snd (database.createTLSConfig E opts h)
         = ReadFile (database.CaCert opts)
             (os_ReadFile E h (database.CaCert opts)) :: rest)
  /\ (forall certFile keyFile res,
         In (LoadX509KeyPair certFile keyFile res)
            (snd (database.createTLSConfig E opts h)) ->
         certFile = database.ClientCert opts
         /\ keyFile = database.ClientKey opts
         /\ exists certBytes,
             os_ReadFile E h (database.CaCert opts) = inl certBytes
             /\ x509_parsePEM E certBytes <> []).
Proof.
  split; [| split; [| split]].
  - answer_cases; do 2 eexists; (split; [reflexivity |]);
      intros Hnil; try discriminate Hnil; discriminate.
  - answer_cases; repeat constructor.
  - unfold_run; cbn.
    destruct (os_ReadFile E h (database.CaCert opts)) as [bytes | e]; cbn;
      [| eexists; reflexivity].
    destruct (x509_parsePEM E bytes); cbn; [eexists; reflexivity |].
    destruct (tls_LoadX509KeyPair E _ _ _); cbn; eexists; reflexivity.
  - intros certFile keyFile res. unfold_run; cbn.
    destruct (os_ReadFile E h (database.CaCert opts)) as [bytes | e]; cbn;
      [| intros Hin; members Hin].
    destruct (x509_parsePEM E bytes) eqn:Hparse; cbn;
      [intros Hin; members Hin |].
    destruct (tls_LoadX509KeyPair E _ _ _); cbn;
      intros Hin; members Hin; inv Hin;
      (split; [reflexivity |]); (split; [reflexivity |]);
      eexists; (split; [reflexivity |]); rewrite Hparse; discriminate.
Qed.

(** X7: the dialer [NewClient] hands to radix always carries the
    [Username] and [Password] options as its credentials, whether ACL is
    enabled or not, and the background context.  With TLS off its
    [NetDialer] is the [*net.Dialer] with the connect timeout; with TLS on
    it is a [*tls.Dialer] around that same [*net.Dialer], holding the
    configuration that [createTLSConfig] returned without error. *)
Theorem NewClient_dialer (E : Env) (opts : database.ClientOptions)
    (addr : string) (h : history) (cfg : radix.PoolConfig)
    (ctx : context.Context) (network address : string)
    (res : radix.Client + error) :
  In (PoolNew cfg ctx network address res)
     (snd (database.NewClient_body E opts addr h)) ->
  ctx = context.Background
  /\ radix.AuthUser (radix.Dialer_ cfg) = database.Username opts
  /\ radix.AuthPass (radix.Dialer_ cfg) = database.Password opts
  /\ (database.TLSEnabled opts = false ->
      radix.NetDialer (radix.Dialer_ cfg)
      = radix.ptr_net_Dialer
          {| net.Timeout := database.DialConnectTimeout opts |})
  /\ (database.TLSEnabled opts = true ->
      exists tlsConfig loaded,
        database.createTLSConfig E opts h
        = (Returns (Some tlsConfig, None), loaded)
        /\ radix.NetDialer (radix.Dialer_ cfg)
           = radix.ptr_tls_Dialer
               {| tls.NetDialer :=
                    {| net.Timeout := database.DialConnectTimeout opts |};
                  tls.Config_ := Some tlsConfig |}).
Proof.
  answer_cases; intros Hin; members Hin; inv Hin;
    (split; [reflexivity |]); (split; [reflexivity |]);
    (split; [reflexivity |]);
    (split; [intros; first [reflexivity | discriminate] |]);
    intros; first [discriminate | do 2 eexists; split; reflexivity].
Qed.

Lemma NewClient_dialer_witness :
  let opts := mock.options true "ca.pem" "store.internal" false "replica" "s3cret" in
  let cfg :=
    poolCfg_of
      {| radix.AuthUser := "replica";
         radix.AuthPass := "s3cret";
         radix.NetDialer :=
           radix.ptr_tls_Dialer
             {| tls.NetDialer := {| net.Timeout := 10000000000 |};
                tls.Config_ :=
                  Some {| tls.RootCAs := Some [mock.pem];
                          tls.Certificates := [mock.identity];
                          tls.ServerName := "store.internal" |} |} |} in
  context.Background = context.Background
  /\ radix.AuthUser (radix.Dialer_ cfg) = database.Username opts
  /\ radix.AuthPass (radix.Dialer_ cfg) = database.Password opts
  /\ (database.TLSEnabled opts = false ->
      radix.NetDialer (radix.Dialer_ cfg)
      = radix.ptr_net_Dialer
          {| net.Timeout := database.DialConnectTimeout opts |})
  /\ (database.TLSEnabled opts = true ->
      exists tlsConfig loaded,
        database.createTLSConfig (mock.env (mock.withMaterial true)) opts []
        = (Returns (Some tlsConfig, None), loaded)
        /\ radix.NetDialer (radix.Dialer_ cfg)
           = radix.ptr_tls_Dialer
               {| tls.NetDialer :=
                    {| net.Timeout := database.DialConnectTimeout opts |};
                  tls.Config_ := Some tlsConfig |}).
Proof.
  cbn zeta.
  apply (NewClient_dialer (mock.env (mock.withMaterial true))
           (mock.options true "ca.pem" "store.internal" false "replica" "s3cret")
           "db:6379" [] _ context.Background "tcp" "db:6379" (inl 2%nat)).
  right. right. left. reflexivity.
Defined.

(** X8: with TLS on, an error of [createTLSConfig] is what [NewClient]
    returns, as it is (not wrapped), together with nil: the configuration
    that [createTLSConfig] may have returned beside the error is dropped,
    and [NewClient] does nothing more, so no pool is asked for. *)
Theorem NewClient_forwards_TLS_error (E : Env) (opts : database.ClientOptions)
    (addr : string) (h : history) (cfg : option tls.Config) (err : error)
    (loaded : list event) :
  database.TLSEnabled opts = true ->
  database.createTLSConfig E opts h = (Returns (cfg, Some err), loaded) ->
  database.NewClient_body E opts addr h = (Returns (None, Some err), loaded)
  /\ dials loaded = [].
Proof.
  intros Htls Hcfg.
  assert (Hrun : database.NewClient_body E opts addr h
                 = (Returns (None, Some err), loaded)).
  { unfold database.NewClient_body. cbn zeta. rewrite Htls.
    unfold bind at 1. unfold bind at 1. rewrite Hcfg. cbn.
    rewrite !app_nil_r. reflexivity. }
  split; [exact Hrun |].
  revert Hcfg. answer_cases; intros Hcfg; inv Hcfg; reflexivity.
Qed.

Lemma NewClient_forwards_TLS_error_witness :
  database.NewClient_body (mock.env (mock.withMaterial false))
    (mock.options true "ca.pem" "" false "" "") "db:6379" []
  = (Returns (None,
              Some (wrapError
                      "failed to read and parse key client.key from client.pem, err: failed to find any PEM data in certificate input"
                      (foreignError "tls" "failed to find any PEM data in certificate input"))),
     [ReadFile "ca.pem" (inl mock.pem);
      LoadX509KeyPair "client.pem" "client.key"
        (inr (foreignError "tls" "failed to find any PEM data in certificate input"))])
  /\ dials [ReadFile "ca.pem" (inl mock.pem);
            LoadX509KeyPair "client.pem" "client.key"
              (inr (foreignError "tls" "failed to find any PEM data in certificate input"))]
     = [].
Proof.
  apply (NewClient_forwards_TLS_error (mock.env (mock.withMaterial false))
           (mock.options true "ca.pem" "" false "" "") "db:6379" []
           (Some {| tls.RootCAs := Some [mock.pem];
                    tls.Certificates := [];
                    tls.ServerName := "" |})
           _ _ eq_refl eq_refl).
Defined.

(** X9: the write and read timeouts of the options have no effect:
    [NewClient] runs the same whatever they are. *)
Theorem NewClient_ignores_io_timeouts (E : Env) (opts : database.ClientOptions)
    (write read : time.Duration) (addr : string) (h : history) :
  database.NewClient_body E (with_io_timeouts opts write read) addr h
  = database.NewClient_body E opts addr h.
Proof.
  unfold database.NewClient_body, database.createTLSConfig,
    database.dialer_literal, with_io_timeouts. cbn. reflexivity.
Qed.

(** X10: with TLS off, the CA path, the client certificate and key paths
    and the subject name have no effect on [NewClient]. *)
Theorem NewClient_ignores_material_without_TLS (E : Env)
    (opts : database.ClientOptions) (ca cert key cn addr : string)
    (h : history) :
  database.TLSEnabled opts = false ->
  database.NewClient_body E (with_material opts ca cert key cn) addr h
  = database.NewClient_body E opts addr h.
Proof.
  intros Hoff.
  unfold database.NewClient_body, database.dialer_literal, with_material.
  cbn. rewrite Hoff. reflexivity.
Qed.

Lemma NewClient_ignores_material_without_TLS_witness :
  database.NewClient_body (mock.env mock.plain)
    (with_material database.clientOpts "ca.pem" "client.pem" "client.key" "store")
    "db:6379" []
  = database.NewClient_body (mock.env mock.plain) database.clientOpts "db:6379" [].
Proof.
  apply (NewClient_ignores_material_without_TLS (mock.env mock.plain)
           database.clientOpts "ca.pem" "client.pem" "client.key" "store"
           "db:6379" [] eq_refl).
Defined.

(** ** The handlers *)

(** The four ways a run of [NewClient] can go. *)
Lemma NewClient_shape (E : Env) (addr : string) (h : history) :
  let cfg := poolCfg_of (database.dialer_literal database.clientOpts) in
  (exists e,
      database.NewClient E addr h
      = (Returns (None, Some (wrapError ("radix poolCfg.New err: " +s+ Error e) e)),
         [PoolNew cfg context.Background "tcp" addr (inr e)]))
  \/ (exists p err res,
         database.NewClient E addr h
         = (Returns (None, Some err),
            [PoolNew cfg context.Background "tcp" addr (inl p); PoolClose p res]))
  \/ (exists p host e err res,
         database.NewClient E addr h
         = (Returns (None, Some err),
            [PoolNew cfg context.Background "tcp" addr (inl p);
             PoolDo p context.Background (database.announce host) (Some e);
             PoolClose p res]))
  \/ (exists p host,
         database.NewClient E addr h
         = (Returns (Some {| database.pool := Some p |}, None),
            [PoolNew cfg context.Background "tcp" addr (inl p);
             PoolDo p context.Background (database.announce host) None])).
Proof.
  cbn zeta. answer_cases;
    first [ left; eexists; reflexivity
          | right; left; do 3 eexists; reflexivity
          | right; right; left; do 5 eexists; reflexivity
          | right; right; right; do 2 eexists; reflexivity ].
Qed.

(** A run of [Close], and of [Do], on a client that holds a pool. *)
Lemma Close_run (E : Env) (p : radix.Client) (h : history) :
  exists r,
    database.Close E {| database.pool := Some p |} h
    = (Returns r, [PoolClose p (radix_Client_Close E h p)]).
Proof.
  unfold_run; cbn. destruct (radix_Client_Close E h p); eexists; reflexivity.
Qed.

Lemma Do_run (E : Env) (p : radix.Client) (a : radix.Action) (h : history) :
  exists r,
    database.Do E {| database.pool := Some p |} a h
    = (Returns r,
       [PoolDo p context.Background a
          (radix_Client_Do E h p context.Background a)])
    /\ (radix_Client_Do E h p context.Background a = None <-> r = None).
Proof.
  unfold_run; cbn.
  destruct (radix_Client_Do E h p context.Background a);
    eexists; (split; [reflexivity |]); split; congruence.
Qed.

Arguments database.NewClient : simpl never.
Arguments database.Close : simpl never.
Arguments database.Do : simpl never.

Ltac unfold_handler :=
  unfold routes.ResolveURL, routes.ShortenURL, routes.Do_into, routes.Do_on,
         routes.defer_Close, routes.prefix, defer_, now, bind, ret, panic in *.

(** Follow a handler one call further. *)
Ltac handler_step :=
  match goal with
  | |- context [routes.BodyParser ?c] =>
      destruct (routes.BodyParser c) as [?body | ?e] eqn:?
  | |- context [database.NewClient ?E ?a ?h] =>
      let H := fresh "Hnew" in
      destruct (NewClient_shape E a h)
        as [(?e & H) | [(?p & ?err & ?res & H)
           | [(?p & ?host & ?e & ?err & ?res & H) | (?p & ?host & H)]]];
      rewrite H; clear H
  | |- context [govalidator_IsURL ?W ?u] =>
      destruct (govalidator_IsURL W u) eqn:?
  | |- context [helpers_RemoveDomainError ?W ?u] =>
      destruct (helpers_RemoveDomainError W u) eqn:?
  | |- context [String.eqb (routes.CustomShort ?b) ""] =>
      destruct (String.eqb_spec (routes.CustomShort b) "")
  | |- context [Nat.leb (String.length ?s) 5] =>
      destruct (Nat.leb_spec (String.length s) 5)
  | |- context [database.Do ?E {| database.pool := Some ?p |} ?a ?h] =>
      let H := fresh "Hdo" in
      let Hr := fresh "Hr" in
      destruct (Do_run E p a h) as (?r & H & Hr); rewrite H; clear H;
      destruct (radix_Client_Do E h p context.Background a) as [?e |] eqn:?;
      [ match type of Hr with
        | _ <-> ?r = None =>
            destruct r; [| exfalso; discriminate (proj2 Hr eq_refl)]
        end
      | rewrite (proj1 Hr eq_refl) ];
      clear Hr
  | |- context [String.eqb (radix_reply ?W ?h ?p ?a) ""] =>
      destruct (String.eqb_spec (radix_reply W h p a) "")
  | |- context [database.Close ?E {| database.pool := Some ?p |} ?h] =>
      let H := fresh "Hclose" in
      destruct (Close_run E p h) as (?r & H); rewrite H; clear H
  end; cbn.

Ltac handler_cases := unfold_handler; cbn; repeat handler_step.

(** Name the outcome and the events of a handler's run, then follow the
    run to each of its ends. *)
Ltac handler_runs run :=
  let o := fresh "o" in
  let evs := fresh "evs" in
  let Hrun := fresh "Hrun" in
  destruct run as [o evs] eqn:Hrun; cbn [fst snd];
  revert Hrun; handler_cases; intros Hrun; inv Hrun.

(** X11: [ResolveURL] never panics, and it answers in one of two ways.
    Either the [GET] of the [url] parameter succeeded on the client it
    had just built: then it redirects, with status 301, to the string the
    store replied, whatever that string is, and the last thing it does is
    close that client.  Or no [GET] succeeded (the client could not be
    made, or the command failed): then it answers 404 with one fixed
    message, the same in both cases. *)
Theorem ResolveURL_answers (E : Env) (W : Web) (c : routes.Ctx) (h : history) :
  let get := radix.Cmd (Some "result") "GET" [routes.Params c "url"] in
  (exists pre p res,
      snd (routes.ResolveURL E W c h)
      = pre ++ [PoolDo p context.Background get None; PoolClose p res]
      /\ fst (routes.ResolveURL E W c h)
         = Returns (routes.Redirect (radix_reply W (h ++ pre) p get) 301))
  \/ (fst (routes.ResolveURL E W c h)
      = Returns (routes.JSON_Map 404
                   [("error", "short not found in the database or cannot connect to DB")])
      /\ forall p ctx,
          ~ In (PoolDo p ctx get None) (snd (routes.ResolveURL E W c h))).
Proof.
  cbn zeta. handler_cases.
  all: try (right; split; [reflexivity |]; intros q ctx Hin; members Hin;
            inv Hin).
  left. eexists [_; _], _, _. split; reflexivity.
Qed.

(** X12: [ResolveURL] closes every pool it caused to be built, once: the
    pools closed are the pools built, at most one.  After a close it does
    nothing more.  It asks for a pool only at [db:6379] on [tcp], and the
    only commands it issues are the announcement and the [GET] of the
    [url] parameter: it never writes to the store. *)
Theorem ResolveURL_closes_its_client (E : Env) (W : Web) (c : routes.Ctx)
    (h : history) :
  shut (snd (routes.ResolveURL E W c h)) = built (snd (routes.ResolveURL E W c h))
  /\ (length (built (snd (routes.ResolveURL E W c h))) <= 1)%nat
  /\ closes_last (snd (routes.ResolveURL E W c h)) = true
  /\ dials (snd (routes.ResolveURL E W c h)) = [("tcp", "db:6379")]
  /\ (forall a,
         In a (commands (snd (routes.ResolveURL E W c h))) ->
         (exists host, a = database.announce host)
         \/ a = radix.Cmd (Some "result") "GET" [routes.Params c "url"]).
Proof.
  handler_runs (routes.ResolveURL E W c h);
    (split; [reflexivity |]); (split; [repeat constructor |]);
    (split; [reflexivity |]); (split; [reflexivity |]);
    intros a Hin; members Hin; subst a;
    first [left; eexists; reflexivity | right; reflexivity].
Qed.

(** X13: [ShortenURL] closes every pool it caused to be built, once,
    also when it panics: the pools closed are the pools built, last built
    first closed, and there are at most two.  After a close it issues no
    command and asks for no pool.  Every pool is asked for at [db:6379]
    on [tcp]. *)
Theorem ShortenURL_closes_its_clients (E : Env) (W : Web) (c : routes.Ctx)
    (h : history) :
  shut (snd (routes.ShortenURL E W c h))
  = rev (built (snd (routes.ShortenURL E W c h)))
  /\ (length (built (snd (routes.ShortenURL E W c h))) <= 2)%nat
  /\ closes_last (snd (routes.ShortenURL E W c h)) = true
  /\ (forall d, In d (dials (snd (routes.ShortenURL E W c h))) ->
                d = ("tcp", "db:6379")).
Proof.
  handler_runs (routes.ShortenURL E W c h);
    (split; [reflexivity |]); (split; [repeat constructor |]);
    (split; [reflexivity |]);
    intros d Hin; members Hin; subst d; reflexivity.
Qed.

(** Bring the histories of a goal to the form [h ++ [ev; ...]]. *)
Ltac flat_history :=
  repeat (rewrite <- app_assoc in * || rewrite app_nil_r in *); cbn [app] in *.

(** X14: what [ShortenURL] does before it looks at the store.  A body
    that does not parse is answered 400 without anything being touched.
    A URL that the validator or the domain check refuses is answered only
    after a first client was asked for: there is one request for a pool,
    no command but the announcement, and the answer is the text of
    [NewClient]'s error with status 400 when that client could not be made,
    and otherwise 400 [Invalid URL] or 503 [Domain error]. *)
Theorem ShortenURL_rejects_early (E : Env) (W : Web) (c : routes.Ctx)
    (h : history) :
  (forall e,
      routes.BodyParser c = inr e ->
      routes.ShortenURL E W c h
      = (Returns (routes.JSON_Map 400 [("error", "Cannot parse JSON")]), []))
  /\ (forall body,
         routes.BodyParser c = inl body ->
         govalidator_IsURL W (routes.URL body) = false
         \/ helpers_RemoveDomainError W (routes.URL body) = false ->
         dials (snd (routes.ShortenURL E W c h)) = [("tcp", "db:6379")]
         /\ (forall a, In a (commands (snd (routes.ShortenURL E W c h))) ->
                       exists host, a = database.announce host)
         /\ fst (routes.ShortenURL E W c h)
            = Returns
                match fst (database.NewClient E "db:6379" h) with
                | Returns (_, Some err) =>
                    routes.JSON_Map 400 [("error", Error err)]
                | _ =>
                    if govalidator_IsURL W (routes.URL body)
                    then routes.JSON_Map 503 [("error", "Domain error")]
                    else routes.JSON_Map 400 [("error", "Invalid URL")]
                end).
Proof.
  split.
  - intros e He. unfold routes.ShortenURL. rewrite He. reflexivity.
  - intros body Hbody Hbad.
    handler_runs (routes.ShortenURL E W c h);
      try discriminate Hbody; inv Hbody;
      try (destruct Hbad as [Hbad | Hbad]; congruence);
      (split; [reflexivity |]);
      (split; [intros a Hin; members Hin; subst a; eexists; reflexivity |]);
      repeat match goal with
             | H : govalidator_IsURL _ _ = _ |- _ => rewrite ?H; clear H
             | H : helpers_RemoveDomainError _ _ = _ |- _ => rewrite ?H; clear H
             end;
      reflexivity.
Qed.

(** X15: the only data [ShortenURL] writes.  A [SET] is issued only for a
    body that parsed and passed both checks, right after a [GET] of the
    same key succeeded with an empty reply, on the same pool.  It is
    [SET key url] with the URL as [EnforceHTTP] returned it and with the
    key equal to the custom short, or, when that is empty, to the first six
    characters of a UUID string.  It has no further argument: the expiry
    of the request is not sent to the store. *)
Theorem ShortenURL_writes_once_checked (E : Env) (W : Web) (c : routes.Ctx)
    (h : history) (p : radix.Client) (ctx : context.Context)
    (a : radix.Action) (res : option error) :
  In (PoolDo p ctx a res) (snd (routes.ShortenURL E W c h)) ->
  radix.cmd a = "SET" ->
  exists body id pre post,
    routes.BodyParser c = inl body
    /\ govalidator_IsURL W (routes.URL body) = true
    /\ helpers_RemoveDomainError W (routes.URL body) = true
    /\ (if String.eqb (routes.CustomShort body) ""
        then exists h', id = String.substring 0 6 (uuid_New_String W h')
        else id = routes.CustomShort body)
    /\ a = radix.Cmd None "SET" [id; helpers_EnforceHTTP W (routes.URL body)]
    /\ ctx = context.Background
    /\ snd (routes.ShortenURL E W c h)
       = pre ++ PoolDo p context.Background
                  (radix.Cmd (Some "result") "GET" [id]) None
             :: PoolDo p ctx a res :: post
    /\ radix_reply W (h ++ pre) p (radix.Cmd (Some "result") "GET" [id]) = ""
    /\ commands post = [].
Proof.
  intros Hin Hset. revert Hin.
  handler_runs (routes.ShortenURL E W c h);
    intros Hin; members Hin; inv Hin;
    unfold database.announce in Hset; cbn in Hset; try discriminate Hset;
    flat_history;
    eexists _, _, [_; _; _; _], _;
    (split; [reflexivity |]); (split; [assumption |]); (split; [assumption |]);
    (split;
     [ match goal with
       | H : routes.CustomShort _ = "" |- _ => rewrite H; cbn; eexists; reflexivity
       | H : routes.CustomShort _ <> "" |- _ =>
           apply String.eqb_neq in H; rewrite H; reflexivity
       end |]);
    (split; [reflexivity |]); (split; [reflexivity |]);
    (split; [reflexivity |]); (split; [assumption |]); reflexivity.
Qed.

Lemma ShortenURL_writes_once_checked_witness :
  let E := mock.env mock.plain in
  let W := mockweb.web mockweb.uuid in
  let c := mockweb.ctx "example.com" "" 0 in
  exists body id pre post,
    routes.BodyParser c = inl body
    /\ govalidator_IsURL W (routes.URL body) = true
    /\ helpers_RemoveDomainError W (routes.URL body) = true
    /\ (if String.eqb (routes.CustomShort body) ""
        then exists h', id = String.substring 0 6 (uuid_New_String W h')
        else id = routes.CustomShort body)
    /\ radix.Cmd None "SET" ["3f2a9c"; "http://example.com"]
       = radix.Cmd None "SET" [id; helpers_EnforceHTTP W (routes.URL body)]
    /\ context.Background = context.Background
    /\ snd (routes.ShortenURL E W c [])
       = pre ++ PoolDo 2%nat context.Background
                  (radix.Cmd (Some "result") "GET" [id]) None
             :: PoolDo 2%nat context.Background
                  (radix.Cmd None "SET" ["3f2a9c"; "http://example.com"]) None
             :: post
    /\ radix_reply W ([] ++ pre) 2%nat (radix.Cmd (Some "result") "GET" [id]) = ""
    /\ commands post = [].
Proof.
  cbn zeta.
  apply (ShortenURL_writes_once_checked (mock.env mock.plain)
           (mockweb.web mockweb.uuid) (mockweb.ctx "example.com" "" 0) []
           2%nat context.Background
           (radix.Cmd None "SET" ["3f2a9c"; "http://example.com"]) None).
  - vm_compute. do 5 right. left. reflexivity.
  - reflexivity.
Defined.

(** X16: when [ShortenURL] answers with a [response], the status is 200,
    the [SET] of the key with the URL as [EnforceHTTP] returned it has
    succeeded, and the answer holds that URL, the short link made of the
    [DOMAIN] environment variable, a slash and the key, the expiry of the
    request (24 when the request had 0), a rate of 10 and a reset of
    30 s. *)
Theorem ShortenURL_created (E : Env) (W : Web) (c : routes.Ctx) (h : history)
    (status : Z) (resp : routes.response) :
  fst (routes.ShortenURL E W c h) = Returns (routes.JSON_response status resp) ->
  exists body id p,
    routes.BodyParser c = inl body
    /\ status = 200
    /\ routes.URL' resp = helpers_EnforceHTTP W (routes.URL body)
    /\ routes.CustomShort' resp = os_Getenv W "DOMAIN" +s+ "/" +s+ id
    /\ routes.Expiry' resp
       = (if routes.Expiry body =? 0 then 24 else routes.Expiry body)
    /\ routes.XRateRemaining resp = 10
    /\ routes.XRateLimitReset resp = 30 * time.Second
    /\ In (PoolDo p context.Background
             (radix.Cmd None "SET" [id; helpers_EnforceHTTP W (routes.URL body)])
             None)
          (snd (routes.ShortenURL E W c h)).
Proof.
  handler_runs (routes.ShortenURL E W c h);
    intros Hret; inv Hret;
    do 3 eexists; (split; [reflexivity |]);
    repeat (split; [reflexivity |]); member.
Qed.

Lemma ShortenURL_created_witness :
  let E := mock.env mock.plain in
  let W := mockweb.web mockweb.uuid in
  let c := mockweb.ctx "example.com" "mine" 0 in
  exists body id p,
    routes.BodyParser c = inl body
    /\ 200 = 200
    /\ "http://example.com" = helpers_EnforceHTTP W (routes.URL body)
    /\ "localhost:3000/mine" = os_Getenv W "DOMAIN" +s+ "/" +s+ id
    /\ 24 = (if routes.Expiry body =? 0 then 24 else routes.Expiry body)
    /\ 10 = 10
    /\ 30000000000 = 30 * time.Second
    /\ In (PoolDo p context.Background
             (radix.Cmd None "SET" [id; helpers_EnforceHTTP W (routes.URL body)])
             None)
          (snd (routes.ShortenURL E W c [])).
Proof.
  cbn zeta.
  apply (ShortenURL_created (mock.env mock.plain) (mockweb.web mockweb.uuid)
           (mockweb.ctx "example.com" "mine" 0) [] 200
           {| routes.URL' := "http://example.com";
              routes.CustomShort' := "localhost:3000/mine";
              routes.Expiry' := 24;
              routes.XRateRemaining := 10;
              routes.XRateLimitReset := 30000000000 |}).
  vm_compute. reflexivity.
Defined.

(** From [H : [ev1; ...; evn] = pre ++ ev :: post], find where [ev] is. *)
Ltac find_split H pre :=
  repeat (destruct pre as [| ? pre]; cbn in H;
          [ first [discriminate H | inversion H; subst; clear H]
          | first [discriminate H | injection H as <- H] ]).

(** X17: a short that is in use is not overwritten.  When the [GET] of
    the key succeeds with a reply that is not empty, [ShortenURL] answers
    403 and issues no [SET]; and it answers 403 in no other case. *)
Theorem ShortenURL_keeps_taken_short (E : Env) (W : Web) (c : routes.Ctx)
    (h : history) :
  (forall pre p id post,
      snd (routes.ShortenURL E W c h)
      = pre ++ PoolDo p context.Background
                 (radix.Cmd (Some "result") "GET" [id]) None :: post ->
      radix_reply W (h ++ pre) p (radix.Cmd (Some "result") "GET" [id]) <> "" ->
      fst (routes.ShortenURL E W c h)
      = Returns (routes.JSON_Map 403
                   [("error", "URL custom short is already in use")])
      /\ forall a, In a (commands (snd (routes.ShortenURL E W c h))) ->
                   radix.cmd a <> "SET")
  /\ (forall m,
         fst (routes.ShortenURL E W c h) = Returns (routes.JSON_Map 403 m) ->
         exists pre p id post,
           snd (routes.ShortenURL E W c h)
           = pre ++ PoolDo p context.Background
                      (radix.Cmd (Some "result") "GET" [id]) None :: post
           /\ radix_reply W (h ++ pre) p (radix.Cmd (Some "result") "GET" [id])
              <> "").
Proof.
  split.
  - intros pre p id post Hsplit Hreply.
    handler_runs (routes.ShortenURL E W c h);
      find_split Hsplit pre; flat_history;
      try contradiction;
      (split; [reflexivity |]);
      intros a Hin; members Hin; subst a; discriminate.
  - intros m Hret.
    handler_runs (routes.ShortenURL E W c h);
      inv Hret;
      flat_history;
      eexists [_; _; _; _], _, _, _; (split; [reflexivity | assumption]).
Qed.

Lemma ShortenURL_keeps_taken_short_witness :
  let E := mock.env mock.plain in
  let W := mockweb.web mockweb.uuid in
  let c := mockweb.ctx "example.com" "mine" 0 in
  let h := [PoolDo 7%nat context.Background
              (radix.Cmd None "SET" ["mine"; "http://first.example"]) None] in
  fst (routes.ShortenURL E W c h)
  = Returns (routes.JSON_Map 403 [("error", "URL custom short is already in use")])
  /\ forall a, In a (commands (snd (routes.ShortenURL E W c h))) ->
               radix.cmd a <> "SET".
Proof.
  cbn zeta.
  apply (proj1 (ShortenURL_keeps_taken_short (mock.env mock.plain)
                  (mockweb.web mockweb.uuid)
                  (mockweb.ctx "example.com" "mine" 0)
                  [PoolDo 7%nat context.Background
                     (radix.Cmd None "SET" ["mine"; "http://first.example"]) None])
           [PoolNew (poolCfg_of (database.dialer_literal database.clientOpts))
              context.Background "tcp" "db:6379" (inl 1%nat);
            PoolDo 1%nat context.Background (database.announce "db") None;
            PoolNew (poolCfg_of (database.dialer_literal database.clientOpts))
              context.Background "tcp" "db:6379" (inl 3%nat);
            PoolDo 3%nat context.Background (database.announce "db") None]
           3%nat "mine"
           [PoolClose 3%nat None; PoolClose 1%nat None]).
  - vm_compute. reflexivity.
  - vm_compute. discriminate.
Defined.


(** X19: the first client [ShortenURL] makes serves no query.  Every
    command other than an announcement ([GET] or [SET]) goes to the pool
    built second; the pool built first is only announced to, and closed. *)
Theorem ShortenURL_first_client_is_idle (E : Env) (W : Web) (c : routes.Ctx)
    (h : history) (p : radix.Client) (ctx : context.Context)
    (a : radix.Action) (res : option error) :
  In (PoolDo p ctx a res) (snd (routes.ShortenURL E W c h)) ->
  radix.cmd a <> "CONFIG" ->
  exists first, built (snd (routes.ShortenURL E W c h)) = [first; p].
Proof.
  intros Hin Hcmd. revert Hin.
  handler_runs (routes.ShortenURL E W c h);
    intros Hin; members Hin; inv Hin;
    try (exfalso; apply Hcmd; reflexivity);
    eexists; reflexivity.
Qed.

Lemma ShortenURL_first_client_is_idle_witness :
  exists first,
    built (snd (routes.ShortenURL (mock.env mock.plain)
                  (mockweb.web mockweb.uuid)
                  (mockweb.ctx "example.com" "mine" 0) []))
    = [first; 2%nat].
Proof.
  apply (ShortenURL_first_client_is_idle (mock.env mock.plain)
           (mockweb.web mockweb.uuid) (mockweb.ctx "example.com" "mine" 0) []
           2%nat context.Background
           (radix.Cmd (Some "result") "GET" ["mine"]) None).
  - vm_compute. do 4 right. left. reflexivity.
  - discriminate.
Defined.

(** The two handlers against a store that remembers: what [ShortenURL]
    stored under a short is where [ResolveURL] redirects that short. *)
Example shorten_then_resolve :
  let E := mock.env mock.plain in
  let W := mockweb.web mockweb.uuid in
  let c := mockweb.ctx "example.com" "mine" 0 in
  let stored := snd (routes.ShortenURL E W c []) in
  fst (routes.ShortenURL E W c [])
  = Returns (routes.JSON_response 200
               {| routes.URL' := "http://example.com";
                  routes.CustomShort' := "localhost:3000/mine";
                  routes.Expiry' := 24;
                  routes.XRateRemaining := 10;
                  routes.XRateLimitReset := 30000000000 |})
  /\ fst (routes.ResolveURL E W c stored)
     = Returns (routes.Redirect "http://example.com" 301).
Proof. vm_compute. split; reflexivity. Qed.
